(** * AI-Doctor-Assistant: a shallow embedding of the request pipeline

    The development follows the four Python modules of the repository:
    - [brain_of_the_doctor.py]  : [encode_image], [analyze_image_with_query],
      [symptom_checker], [fetch_medical_knowledge];
    - [voice_of_the_patient.py] : [transcribe_with_groq], [detect_emotion];
    - [voice_of_the_doctor.py]  : [text_to_speech_with_gtts],
      [text_to_speech_with_elevenlabs];
    - [gradio_app.py]           : [conversation_memory], [process_inputs].

    Python values are modelled as the code uses them: [str] as [string]
    (code points below 256), [bytes] as [list byte], an argument that may be
    [None] as an [option], a [dict] literal that is only iterated as an
    association list in insertion order, a stream of audio as the chunks it
    yields with the exception that may cut it short.  Effects (the module-level list
    [conversation_memory], the remote services, the file system, the
    environment and raised exceptions) are threaded through a state and
    exception monad. *)

From Stdlib Require Import String Ascii List Bool ZArith NArith QArith Lia.
From Stdlib.Strings Require Import Byte.
From Stdlib Require Import DecimalString DecimalPos DecimalZ.
Import ListNotations.

Local Open Scope string_scope.
Local Open Scope list_scope.

(** ** Python strings *)

Module PyStr.

(** [str.lower] on code points below 256: A-Z and the Latin-1 capitals
    (0xC0-0xDE except the multiplication sign 0xD7) move up by 32. *)
Definition lower_char (c : ascii) : ascii :=
  let n := N_of_ascii c in
  if ((65 <=? n) && (n <=? 90))%N then ascii_of_N (n + 32)
  else if ((192 <=? n) && (n <=? 222) && negb (n =? 215))%N
       then ascii_of_N (n + 32)
       else c.

Fixpoint lower (s : string) : string :=
  match s with
  | EmptyString => EmptyString
  | String c r => String (lower_char c) (lower r)
  end.

(** [str.isspace] on one code point below 256. *)
Definition is_space (c : ascii) : bool :=
  let n := N_of_ascii c in
  (((9 <=? n) && (n <=? 13)) || ((28 <=? n) && (n <=? 32))
   || (n =? 133) || (n =? 160))%N.

Fixpoint lstrip (s : string) : string :=
  match s with
  | EmptyString => EmptyString
  | String c r => if is_space c then lstrip r else s
  end.

(** [rstrip] keeps a character when it is not a space or when something
    is kept after it. *)
Fixpoint rstrip (s : string) : string :=
  match s with
  | EmptyString => EmptyString
  | String c r =>
      match rstrip r with
      | EmptyString => if is_space c then EmptyString else String c EmptyString
      | r' => String c r'
      end
  end.

(** [s.strip()] *)
Definition strip (s : string) : string := rstrip (lstrip s).

(** [needle in hay] *)
Fixpoint contains (needle hay : string) : bool :=
  if String.prefix needle hay then true
  else match hay with
       | EmptyString => false
       | String _ rest => contains needle rest
       end.

(** Truth value of a [str]: only the empty string is false. *)
Definition truthy (s : string) : bool :=
  match s with EmptyString => false | _ => true end.

(** Truth value of a value that is [None] or a [str]. *)
Definition truthy_opt (o : option string) : bool :=
  match o with None => false | Some s => truthy s end.

End PyStr.

(** ** brain_of_the_doctor.py: knowledge lookup *)

Definition symptom_mapping : list (string * string) :=
  [ ("headache", "Do you have any other symptoms like fever or nausea?");
    ("fever", "How long have you had the fever? Is it accompanied by chills or sweating?");
    ("cough", "Is your cough dry or productive? Do you have shortness of breath?");
    ("chest pain", "Is the pain sharp or dull? Does it radiate to your arm or jaw?");
    ("fatigue", "Have you been experiencing fatigue for a long time? Do you have trouble sleeping?");
    ("abdominal pain", "Where exactly is the pain located? Is it sharp or cramping?") ].

Definition medical_knowledge : list (string * string) :=
  [ ("headache", "Headaches can be caused by stress, dehydration, or migraines. Drink water and rest.");
    ("fever", "Fever is often a sign of infection. Monitor your temperature and stay hydrated.");
    ("cough", "A cough can be due to a cold, flu, or allergies. Rest and drink warm fluids.");
    ("chest pain", "Chest pain can indicate heart issues. Seek medical attention immediately.");
    ("fatigue", "Fatigue can result from lack of sleep, stress, or underlying health conditions.");
    ("abdominal pain", "Abdominal pain can be caused by indigestion, gas, or more serious conditions.") ].

(** The body of [for symptom, question in symptom_mapping.items(): ...]
    followed by the statement after the loop. *)
Fixpoint symptom_loop (items : list (string * string)) (user_input : string)
  : string :=
  match items with
  | [] => "Can you describe your symptoms in more detail?"
  | (symptom, question) :: rest =>
      if PyStr.contains symptom (PyStr.lower user_input)
      then "I see you mentioned " ++ symptom ++ ". " ++ question
      else symptom_loop rest user_input
  end.

Definition symptom_checker (user_input : string) : string :=
  symptom_loop symptom_mapping user_input.

Fixpoint knowledge_loop (items : list (string * string)) (query : string)
  : string :=
  match items with
  | [] => "I recommend consulting a healthcare professional for more detailed information."
  | (keyword, info) :: rest =>
      if PyStr.contains keyword (PyStr.lower query)
      then "Medical Information: " ++ info
      else knowledge_loop rest query
  end.

Definition fetch_medical_knowledge (query : string) : string :=
  knowledge_loop medical_knowledge query.

(** ** base64 (RFC 4648), as used by [base64.b64encode] *)

Module Base64.

Definition alphabet : string :=
  "ABCDEFGHIJKLMNOPQRSTUVWXYZabcdefghijklmnopqrstuvwxyz0123456789+/".

Definition pad : ascii := "="%char.

(** The character of a six-bit value. *)
Definition char_of_sextet (n : N) : ascii :=
  match String.get (N.to_nat n) alphabet with
  | Some c => c
  | None => pad
  end.

Fixpoint index_from (i : N) (c : ascii) (s : string) : option N :=
  match s with
  | EmptyString => None
  | String d r => if Ascii.eqb c d then Some i else index_from (N.succ i) c r
  end.

(** The six-bit value of a character of the alphabet. *)
Definition sextet_of_char (c : ascii) : option N := index_from 0 c alphabet.

Definition byte_of_N (n : N) : byte :=
  match Byte.of_N n with Some b => b | None => x00 end.

(** Three input bytes give four characters; one or two trailing bytes are
    completed with zero bits and padded with [=]. *)
Definition encode3 (b0 b1 b2 : N) : list ascii :=
  [ char_of_sextet (N.shiftr b0 2);
    char_of_sextet (N.lor (N.shiftl (N.land b0 3) 4) (N.shiftr b1 4));
    char_of_sextet (N.lor (N.shiftl (N.land b1 15) 2) (N.shiftr b2 6));
    char_of_sextet (N.land b2 63) ].

Definition encode2 (b0 b1 : N) : list ascii :=
  [ char_of_sextet (N.shiftr b0 2);
    char_of_sextet (N.lor (N.shiftl (N.land b0 3) 4) (N.shiftr b1 4));
    char_of_sextet (N.shiftl (N.land b1 15) 2);
    pad ].

Definition encode1 (b0 : N) : list ascii :=
  [ char_of_sextet (N.shiftr b0 2);
    char_of_sextet (N.shiftl (N.land b0 3) 4);
    pad; pad ].

Fixpoint b64encode (data : list byte) : list ascii :=
  match data with
  | [] => []
  | [b0] => encode1 (Byte.to_N b0)
  | [b0; b1] => encode2 (Byte.to_N b0) (Byte.to_N b1)
  | b0 :: b1 :: b2 :: rest =>
      encode3 (Byte.to_N b0) (Byte.to_N b1) (Byte.to_N b2) ++ b64encode rest
  end.

Definition decode_byte0 (v0 v1 : N) : byte :=
  byte_of_N (N.lor (N.shiftl v0 2) (N.shiftr v1 4)).
Definition decode_byte1 (v1 v2 : N) : byte :=
  byte_of_N (N.lor (N.shiftl (N.land v1 15) 4) (N.shiftr v2 2)).
Definition decode_byte2 (v2 v3 : N) : byte :=
  byte_of_N (N.lor (N.shiftl (N.land v2 3) 6) v3).

(** Strict decoding, four characters at a time; padding is accepted only
    in the last group. *)
Fixpoint b64decode (s : list ascii) : option (list byte) :=
  match s with
  | [] => Some []
  | c0 :: c1 :: c2 :: c3 :: rest =>
      match sextet_of_char c0, sextet_of_char c1 with
      | Some v0, Some v1 =>
          match sextet_of_char c2, sextet_of_char c3 with
          | Some v2, Some v3 =>
              match b64decode rest with
              | Some tl =>
                  Some (decode_byte0 v0 v1 :: decode_byte1 v1 v2
                          :: decode_byte2 v2 v3 :: tl)
              | None => None
              end
          | Some v2, None =>
              match rest with
              | [] => if Ascii.eqb c3 pad
                      then Some [decode_byte0 v0 v1; decode_byte1 v1 v2]
                      else None
              | _ :: _ => None
              end
          | None, _ =>
              match rest with
              | [] => if Ascii.eqb c2 pad && Ascii.eqb c3 pad
                      then Some [decode_byte0 v0 v1]
                      else None
              | _ :: _ => None
              end
          end
      | _, _ => None
      end
  | _ => None
  end.

(** [bytes.decode("utf-8")] of ASCII bytes and its inverse. *)
Definition text_of_chars (l : list ascii) : string := string_of_list_ascii l.
Definition chars_of_text (s : string) : list ascii := list_ascii_of_string s.

End Base64.

(** ** The world outside the program *)

(** Exceptions that the modelled code can raise.  [RemoteError] stands for
    any [Exception] raised inside a third-party client. *)
Inductive exn : Type :=
| AttributeError (msg : string)
| TypeError (msg : string)
| UnboundLocalError (msg : string)
| ValueError (msg : string)
| FileNotFoundError (msg : string)
| IsADirectoryError (msg : string)
| PermissionError (msg : string)
| RemoteError (msg : string).

(** [str(e)] *)
Definition str_of_exn (e : exn) : string :=
  match e with
  | AttributeError m | TypeError m | UnboundLocalError m | ValueError m
  | FileNotFoundError m | IsADirectoryError m | PermissionError m
  | RemoteError m => m
  end.

(** What a path names: a file whose bytes can be read, a directory, or a
    file the process may not read. *)
Inductive file : Type :=
| Readable (data : list byte)
| Directory
| Forbidden.

(** What iterating over a stream of audio gives: the chunks it yields, and
    the exception that ends the iteration before its time, if any. *)
Record audio_stream : Type := {
  yielded : list (list byte);
  interrupted : option exn
}.

(** What a call into a third-party client does. *)
Inductive remote (A : Type) : Type :=
| Replies (a : A)
| Fails (e : exn).
Arguments Replies {A} a.
Arguments Fails {A} e.

(** Everything the program reads from outside: files, the environment,
    the clock and the answers of the remote services. *)
Record world : Type := {
  (** what a path names, [None] when [os.path.exists] is false *)
  fs : string -> option file;
  (** [open(path, "wb")]: the exception it raises, if it does *)
  open_for_writing : string -> option exn;
  (** [f.write(chunk)] on the file at a path: the exception it raises, if
      it does *)
  disk_write : string -> list byte -> option exn;
  (** [os.environ.get] *)
  environ : string -> option string;
  (** [time.time()], in seconds *)
  time_time : Q;
  (** [client.audio.transcriptions.create(model, file, language)]: the
      transcription object ([None] when it is falsy) with its [.text] *)
  groq_transcriptions : string -> list byte -> string -> remote (option string);
  (** [client.chat.completions.create(messages, model)], from the query
      text, the image URL and the model: the completion ([None] when it is
      falsy) with the [message.content] of each of its choices *)
  groq_chat : string -> string -> string -> remote (option (list string));
  (** [requests.post] to the emotion API followed by [response.json()]:
      status code and the value under ["emotion"] if the key is there *)
  emotion_post : list byte -> remote (Z * option string);
  (** translation backend: text and target language *)
  translator : string -> string -> remote string;
  (** [client.generate(text, voice, model)]: the stream it hands back, or
      [None] for an object without [__iter__] *)
  elevenlabs_generate : string -> string -> string -> remote (option audio_stream);
  (** [gTTS(text, lang, slow)]: the constructor raises, or gives the object
      whose [stream()] yields the audio *)
  gtts : string -> string -> remote audio_stream
}.

Inductive role : Type := user | system | assistant.

(** One entry of [conversation_memory]: [{"role": r, "content": c}]. *)
Record turn : Type := Turn { turn_role : role; content : string }.

(** What the program does to the outside, in order. *)
Inductive event : Type :=
| EvEnvGet (key : string)
| EvRead (path : string)
| EvTranscribe (model path language : string)
| EvEmotion (path : string)
| EvChat (query url model : string)
| EvTranslate (text target : string)
| EvElevenLabs (text : string)
| EvGtts (text lang : string)
| EvCreate (path : string)
| EvWrite (path : string) (chunk : list byte)
| EvPlay (path : string).

(** The mutable part: the module-level list of gradio_app.py and the log
    of effects. *)
Record state : Type := {
  conversation_memory : list turn;
  trace : list event
}.

(** ** State and exception monad *)

Inductive outcome (A : Type) : Type :=
| Returns (a : A)
| Raises (e : exn).
Arguments Returns {A} a.
Arguments Raises {A} e.

Definition M (A : Type) : Type := state -> outcome A * state.

Definition ret {A} (a : A) : M A := fun s => (Returns a, s).

Definition raise {A} (e : exn) : M A := fun s => (Raises e, s).

Definition bind {A B} (m : M A) (k : A -> M B) : M B :=
  fun s => match m s with
           | (Returns a, s') => k a s'
           | (Raises e, s') => (Raises e, s')
           end.

(** [try: m  except Exception as e: handler e] *)
Definition try_except {A} (m : M A) (handler : exn -> M A) : M A :=
  fun s => match m s with
           | (Returns a, s') => (Returns a, s')
           | (Raises e, s') => handler e s'
           end.

Definition emit (e : event) : M unit :=
  fun s => (Returns tt,
            {| conversation_memory := conversation_memory s;
               trace := trace s ++ [e] |}).

(** [conversation_memory.append({"role": r, "content": c})] *)
Definition memory_append (r : role) (c : string) : M unit :=
  fun s => (Returns tt,
            {| conversation_memory := conversation_memory s ++ [Turn r c];
               trace := trace s |}).

(** The result of a client call: a reply is a value, a failure is raised. *)
Definition lift_remote {A} (r : remote A) : M A :=
  match r with
  | Replies a => ret a
  | Fails e => raise e
  end.

Declare Scope py_scope.
Delimit Scope py_scope with py.
Notation "x <- c1 ;; c2" := (bind c1 (fun x => c2))
  (at level 61, c1 at next level, right associativity) : py_scope.
Notation "' pat <- c1 ;; c2" := (bind c1 (fun x => match x with pat => c2 end))
  (at level 61, pat pattern, c1 at next level, right associativity) : py_scope.
Notation "c1 ;; c2" := (bind c1 (fun _ => c2))
  (at level 61, right associativity) : py_scope.
Local Open Scope py_scope.

(** ** Python calls

    A [def] is known by its name and its parameters in order, each with a
    flag telling whether it has a default.  A call gives a number of
    positional arguments and the names of its keyword arguments; binding
    them raises [TypeError] before the body runs when a keyword names no
    parameter, an argument is given twice or a parameter without default
    is left out. *)

Record pydef : Type := {
  def_name : string;
  def_params : list (string * bool)
}.

Definition param_names (d : pydef) : list string := map fst (def_params d).

Definition mem_string (k : string) (l : list string) : bool :=
  existsb (String.eqb k) l.

Definition check_call (d : pydef) (npos : nat) (kws : list string)
  : option exn :=
  if (length (def_params d) <? npos)%nat
  then Some (TypeError (def_name d ++ "() takes fewer positional arguments than were given"))
  else
    match find (fun k => negb (mem_string k (param_names d))) kws with
    | Some k =>
        Some (TypeError (def_name d ++ "() got an unexpected keyword argument '" ++ k ++ "'"))
    | None =>
        match find (fun k => mem_string k (firstn npos (param_names d))) kws with
        | Some k =>
            Some (TypeError (def_name d ++ "() got multiple values for argument '" ++ k ++ "'"))
        | None =>
            match find (fun p => negb (snd p) && negb (mem_string (fst p) kws))
                       (skipn npos (def_params d)) with
            | Some p =>
                Some (TypeError (def_name d ++ "() missing 1 required positional argument: '" ++ fst p ++ "'"))
            | None => None
            end
        end
    end.

(** A call of [d] with [npos] positional arguments and keywords [kws],
    whose body, once the arguments are bound, is [body]. *)
Definition call {A} (d : pydef) (npos : nat) (kws : list string) (body : M A)
  : M A :=
  match check_call d npos kws with
  | Some e => raise e
  | None => body
  end.

(** The signatures of the [def] lines. *)
Definition def_encode_image : pydef :=
  {| def_name := "encode_image"; def_params := [("image_path", false)] |}.

Definition def_analyze_image_with_query : pydef :=
  {| def_name := "analyze_image_with_query";
     def_params := [("query", false); ("encoded_image", false); ("model", true)] |}.

Definition def_transcribe_with_groq : pydef :=
  {| def_name := "transcribe_with_groq";
     def_params := [("stt_model", false); ("audio_filepath", false);
                    ("GROQ_API_KEY", false); ("language", true)] |}.

Definition def_detect_emotion : pydef :=
  {| def_name := "detect_emotion"; def_params := [("audio_filepath", false)] |}.

Definition def_text_to_speech_with_gtts : pydef :=
  {| def_name := "text_to_speech_with_gtts";
     def_params := [("input_text", false); ("output_filepath", false); ("lang", true)] |}.

Definition def_text_to_speech_with_elevenlabs : pydef :=
  {| def_name := "text_to_speech_with_elevenlabs";
     def_params := [("input_text", false); ("output_filepath", false)] |}.

(** ** Small pieces of the Python library *)

(** [int(x)] of a float: truncation toward zero. *)
Definition int_of_float (x : Q) : Z := Z.quot (Qnum x) (Z.pos (Qden x)).

(** [str(n)] of an int. *)
Definition str_of_int (n : Z) : string := NilZero.string_of_int (Z.to_int n).

(** [d.get(key, default)] *)
Fixpoint dict_get (d : list (string * string)) (key default : string) : string :=
  match d with
  | [] => default
  | (k, v) :: rest => if String.eqb k key then v else dict_get rest key default
  end.

(** [[chunk for chunk in chunks if chunk]] *)
Definition truthy_chunks (chunks : list (list byte)) : list (list byte) :=
  filter (fun c => match c with [] => false | _ => true end) chunks.

Definition system_prompt : string :=
"You have to act as a professional doctor. 
            What's in this image? Do you find anything wrong with it medically? 
            If you make a differential, suggest some remedies for them. Do not add any numbers or special characters 
            in your response. Your response should be in one long paragraph. Always answer as if you are speaking 
            to a real person. Do not say 'In the image I see' but say 'With what I see, I think you have ...' 
            Do not respond as an AI model or in markdown, your answer should mimic that of an actual doctor. 
            Keep your answer concise (max 2 sentences). No preamble, start your answer right away.".

Definition GTTS_SUPPORTED_LANGUAGES : list (string * string) :=
  [ ("English", "en"); ("Hindi", "hi"); ("Bengali", "bn"); ("Telugu", "te");
    ("Marathi", "mr"); ("Tamil", "ta"); ("Urdu", "ur"); ("Gujarati", "gu");
    ("Malayalam", "ml"); ("Kannada", "kn"); ("Odia", "or"); ("Punjabi", "pa");
    ("Assamese", "as"); ("Maithili", "hi"); ("Santali", "hi") ].

(** ** The adapters *)

Section Adapters.

Variable w : world.

(** [os.path.exists(path)] *)
Definition path_exists (path : string) : bool :=
  match fs w path with Some _ => true | None => false end.

(** [os.environ.get(key)] *)
Definition environ_get (key : string) : M (option string) :=
  emit (EvEnvGet key) ;; ret (environ w key).

(** [with open(path, "rb") as f: f.read()] *)
Definition read_binary (path : string) : M (list byte) :=
  match fs w path with
  | Some (Readable data) => emit (EvRead path) ;; ret data
  | Some Directory =>
      raise (IsADirectoryError ("[Errno 21] Is a directory: '" ++ path ++ "'"))
  | Some Forbidden =>
      raise (PermissionError ("[Errno 13] Permission denied: '" ++ path ++ "'"))
  | None =>
      raise (FileNotFoundError
               ("[Errno 2] No such file or directory: '" ++ path ++ "'"))
  end.

(** [open(path, "wb")]: the file is created, or emptied if it is there. *)
Definition open_wb (path : string) : M unit :=
  match open_for_writing w path with
  | Some e => raise e
  | None => emit (EvCreate path)
  end.

(** [f.write(chunk)] on the file opened at [path]. *)
Definition file_write (path : string) (chunk : list byte) : M unit :=
  match disk_write w path chunk with
  | Some e => raise e
  | None => emit (EvWrite path chunk)
  end.

(** The end of a [for] loop over a stream: the iteration stops, or raises
    what cut the stream short. *)
Definition end_of_stream (audio : audio_stream) : M unit :=
  match interrupted audio with
  | Some e => raise e
  | None => ret tt
  end.

(** *** brain_of_the_doctor.py *)


Definition encode_image (image_path : string) : M string :=
  if negb (path_exists image_path)
  then raise (FileNotFoundError ("Error: Image file '" ++ image_path ++ "' not found."))
  else
    data <- read_binary image_path ;;
    ret (Base64.text_of_chars (Base64.b64encode data)).

(** [f"data:image/jpeg;base64,{encoded_image}"]; [None] prints as its name. *)
Definition image_url (encoded_image : option string) : string :=
  "data:image/jpeg;base64,"
  ++ match encoded_image with Some e => e | None => "None" end.

Definition analyze_image_with_query
    (query : string) (encoded_image : option string) (model : string)
  : M string :=
  try_except
    (emit (EvChat query (image_url encoded_image) model) ;;
     chat_completion <-
       lift_remote (groq_chat w query (image_url encoded_image) model) ;;
     match chat_completion with
     | Some (first_choice :: _) => ret (PyStr.strip first_choice)
     | _ => ret "Error: No valid response from the model."
     end)
    (fun e => ret ("Error during image analysis: " ++ str_of_exn e)%string).

(** *** voice_of_the_patient.py *)

Definition transcribe_with_groq
    (stt_model audio_filepath GROQ_API_KEY language : string) : M string :=
  if negb (path_exists audio_filepath)
  then ret "Error: Audio file not found."
  else
    try_except
      (audio_file <- read_binary audio_filepath ;;
       emit (EvTranscribe stt_model audio_filepath language) ;;
       transcription <-
         lift_remote (groq_transcriptions w stt_model audio_file language) ;;
       ret match transcription with
           | Some text => text
           | None => "Error: No transcription result."
           end)
      (fun _ => ret "Error: Failed to transcribe audio.").

Definition detect_emotion (audio_filepath : string) : M string :=
  API_KEY <- environ_get "EMOTION_API_KEY" ;;
  if negb (PyStr.truthy_opt API_KEY)
  then ret "neutral"
  else
    try_except
      (audio_file <- read_binary audio_filepath ;;
       emit (EvEmotion audio_filepath) ;;
       ' (status_code, emotion) <- lift_remote (emotion_post w audio_file) ;;
       if (status_code =? 200)%Z
       then ret match emotion with Some e => e | None => "neutral" end
       else ret "neutral")
      (fun _ => ret "neutral").

(** *** voice_of_the_doctor.py *)

(** [play_audio] catches whatever playback raises and returns nothing. *)
Definition play_audio (output_filepath : string) : M unit :=
  emit (EvPlay output_filepath).

(** [f"{output_filepath}_{int(time.time())}.mp3"] *)
Definition timestamped (output_filepath : string) : string :=
  output_filepath ++ "_" ++ str_of_int (int_of_float (time_time w)) ++ ".mp3".

(** [for decoded in self.stream(): fp.write(decoded)] of gTTS. *)
Fixpoint write_to_fp (path : string) (chunks : list (list byte)) : M unit :=
  match chunks with
  | [] => ret tt
  | decoded :: rest => file_write path decoded ;; write_to_fp path rest
  end.

(** [audioobj.save(savefile)] of gTTS:
    [with open(savefile, "wb") as f: self.write_to_fp(f)].  The file is
    opened before the audio is fetched. *)
Definition gtts_save (audioobj : audio_stream) (savefile : string) : M unit :=
  open_wb savefile ;;
  write_to_fp savefile (yielded audioobj) ;;
  end_of_stream audioobj.

Definition text_to_speech_with_gtts
    (input_text output_filepath lang : string) : M string :=
  let lang_code := dict_get GTTS_SUPPORTED_LANGUAGES lang "en" in
  let temp_filepath := timestamped output_filepath in
  emit (EvGtts input_text lang_code) ;;
  audioobj <- lift_remote (gtts w input_text lang_code) ;;
  gtts_save audioobj temp_filepath ;;
  play_audio temp_filepath ;;
  ret temp_filepath.

(** [for chunk in audio_stream: if chunk: f.write(chunk)] *)
Fixpoint write_chunks (path : string) (chunks : list (list byte)) : M unit :=
  match chunks with
  | [] => ret tt
  | chunk :: rest =>
      (match chunk with
       | [] => ret tt
       | _ :: _ => file_write path chunk
       end) ;;
      write_chunks path rest
  end.

Definition text_to_speech_with_elevenlabs
    (input_text output_filepath : string) : M (option string) :=
  try_except
    (emit (EvElevenLabs input_text) ;;
     audio_stream <-
       lift_remote (elevenlabs_generate w input_text "Aria" "eleven_turbo_v2") ;;
     let temp_filepath := timestamped output_filepath in
     match audio_stream with
     | Some stream =>
         open_wb temp_filepath ;;
         write_chunks temp_filepath (yielded stream) ;;
         end_of_stream stream ;;
         play_audio temp_filepath ;;
         ret (Some temp_filepath)
     | None => ret None
     end)
    (fun _ => ret None).

(** Modelled from the spec: [translate_text], which gradio_app.py imports
    from voice_of_the_doctor.py and that module does not define.  Section
    4.5: a single synchronous call to a translation backend with
    auto-detected source language; returns the translated text; a backend
    failure propagates to the caller. *)
Definition translate_text (text target_lang : string) : M string :=
  emit (EvTranslate text target_lang) ;;
  lift_remote (translator w text target_lang).

End Adapters.

(** ** gradio_app.py: the orchestrator *)

Section Orchestrator.

Variable w : world.

(** [x is None] *)
Definition is_None {A} (x : option A) : bool :=
  match x with None => true | Some _ => false end.

(** [a and b] on conditions: [b] is evaluated only when [a] is true. *)
Definition py_and (a b : M bool) : M bool :=
  va <- a ;; if va then b else ret false.

(** [text_input.strip()]; [None] has no such attribute. *)
Definition strip_method (text_input : option string) : M string :=
  match text_input with
  | Some s => ret (PyStr.strip s)
  | None => raise (AttributeError "'NoneType' object has no attribute 'strip'")
  end.

(** The condition of the first [if] of [process_inputs]. *)
Definition no_input_given (audio_filepath image_filepath text_input : option string)
  : M bool :=
  py_and (ret (is_None audio_filepath))
    (py_and (ret (is_None image_filepath))
       (stripped <- strip_method text_input ;; ret (String.eqb stripped ""))).

(** Reading the local variable [encoded_image], which is bound only when
    the image branch has run. *)
Definition read_encoded_image (encoded_image : option string) : M string :=
  match encoded_image with
  | Some e => ret e
  | None =>
      raise (UnboundLocalError
               "cannot access local variable 'encoded_image' where it is not associated with a value")
  end.

(** The value of a [None]-or-[str] argument that has tested true. *)
Definition str_value (o : option string) : string :=
  match o with Some s => s | None => "" end.

Definition triple : Type := string * string * option string.

(** [process_inputs] from "Combine text inputs" to its last line, with
    the two variables the [if]/[else] above it has assigned. *)
Definition process_inputs_rest
    (image_filepath text_input : option string) (language_preference : string)
    (speech_to_text_output emotion : string) : M triple :=
  let user_input :=
    if PyStr.truthy_opt text_input then str_value text_input
    else speech_to_text_output in
  memory_append user user_input ;;
  ' (encoded_image, image_analysis) <-
    (if PyStr.truthy_opt image_filepath && path_exists w (str_value image_filepath)
     then
       encoded_image <-
         call def_encode_image 1 [] (encode_image w (str_value image_filepath)) ;;
       image_analysis <-
         call def_analyze_image_with_query 0 ["query"; "encoded_image"; "model"]
           (analyze_image_with_query w system_prompt (Some encoded_image)
              "llama-3.2-11b-vision-preview") ;;
       ret (Some encoded_image, image_analysis)
     else ret (None, "")) ;;
  let symptom_analysis := symptom_checker user_input in
  (if PyStr.truthy symptom_analysis
   then memory_append system symptom_analysis else ret tt) ;;
  let medical_info := fetch_medical_knowledge user_input in
  (if PyStr.truthy medical_info
   then memory_append system medical_info else ret tt) ;;
  encoded_image_arg <-
    (if PyStr.truthy_opt image_filepath
     then e <- read_encoded_image encoded_image ;; ret (Some e)
     else ret None) ;;
  ai_response <-
    call def_analyze_image_with_query 0
      ["query"; "encoded_image"; "model"; "memory"]
      (analyze_image_with_query w (system_prompt ++ " " ++ user_input)%string
         encoded_image_arg "llama-3.2-11b-vision-preview") ;;
  memory_append assistant ai_response ;;
  ai_response <-
    (if negb (String.eqb language_preference "en")
     then translate_text w ai_response language_preference
     else ret ai_response) ;;
  voice_of_doctor <-
    try_except
      (call def_text_to_speech_with_elevenlabs 0
         ["input_text"; "output_filepath"; "language"]
         (text_to_speech_with_elevenlabs w ai_response "final.mp3"))
      (fun _ => ret None) ;;
  ret (user_input, ai_response, voice_of_doctor).

Definition process_inputs
    (audio_filepath image_filepath text_input : option string)
    (language_preference : string) : M triple :=
  no_input <- no_input_given audio_filepath image_filepath text_input ;;
  if no_input
  then ret ("No input provided", "No doctor response", None)
  else if PyStr.truthy_opt audio_filepath && path_exists w (str_value audio_filepath)
  then
    GROQ_API_KEY <- environ_get w "GROQ_API_KEY" ;;
    if negb (PyStr.truthy_opt GROQ_API_KEY)
    then ret ("Error: Missing GROQ API Key", "No doctor response", None)
    else
      speech_to_text_output <-
        call def_transcribe_with_groq 0
          ["GROQ_API_KEY"; "audio_filepath"; "stt_model"; "language"]
          (transcribe_with_groq w "whisper-large-v3" (str_value audio_filepath)
             (str_value GROQ_API_KEY) "auto") ;;
      emotion <-
        call def_detect_emotion 1 [] (detect_emotion w (str_value audio_filepath)) ;;
      process_inputs_rest image_filepath text_input language_preference
        speech_to_text_output emotion
  else
    process_inputs_rest image_filepath text_input language_preference
      "" "neutral".

End Orchestrator.

(** A fresh process: empty [conversation_memory], nothing done yet. *)
Definition initial_state : state :=
  {| conversation_memory := []; trace := [] |}.

(** ** Concrete worlds used in examples *)

(** A world where everything works: both files are there (beside a
    directory of scans), the Groq key is set, every service answers. *)
Definition healthy_world : world :=
  {| fs := fun p =>
             if String.eqb p "rash.jpg" then Some (Readable [x89; x50; x4e; x47])
             else if String.eqb p "voice.mp3" then Some (Readable [x49; x44; x33])
             else if String.eqb p "scans" then Some Directory
             else None;
     open_for_writing := fun _ => None;
     disk_write := fun _ _ => None;
     environ := fun k =>
                  if String.eqb k "GROQ_API_KEY" then Some "gsk_live" else None;
     time_time := 6800000001 # 4;
     groq_transcriptions := fun _ _ _ => Replies (Some " I have a cough ");
     groq_chat := fun _ _ _ =>
                    Replies (Some ["With what I see, I think you have a mild rash. "]);
     emotion_post := fun _ => Replies (200%Z, Some "sad");
     translator := fun text _ => Replies text;
     elevenlabs_generate :=
       fun _ _ _ =>
         Replies (Some {| yielded := [[x49; x44]; []; [x33]];
                          interrupted := None |});
     gtts := fun _ _ =>
               Replies {| yielded := [[x49; x44]; [x33]]; interrupted := None |} |}.

(** The same world a little later within the same second. *)
Definition healthy_world_later : world :=
  {| fs := fs healthy_world;
     open_for_writing := open_for_writing healthy_world;
     disk_write := disk_write healthy_world;
     environ := environ healthy_world;
     time_time := 6800000003 # 4;
     groq_transcriptions := groq_transcriptions healthy_world;
     groq_chat := groq_chat healthy_world;
     emotion_post := emotion_post healthy_world;
     translator := translator healthy_world;
     elevenlabs_generate := elevenlabs_generate healthy_world;
     gtts := gtts healthy_world |}.

(** The same world without the Groq key. *)
Definition keyless_world : world :=
  {| fs := fs healthy_world;
     open_for_writing := open_for_writing healthy_world;
     disk_write := disk_write healthy_world;
     environ := fun _ => None;
     time_time := time_time healthy_world;
     groq_transcriptions := groq_transcriptions healthy_world;
     groq_chat := groq_chat healthy_world;
     emotion_post := emotion_post healthy_world;
     translator := translator healthy_world;
     elevenlabs_generate := elevenlabs_generate healthy_world;
     gtts := gtts healthy_world |}.

(** The healthy world with a transcription service that is down. *)
Definition deaf_world : world :=
  {| fs := fs healthy_world;
     open_for_writing := open_for_writing healthy_world;
     disk_write := disk_write healthy_world;
     environ := environ healthy_world;
     time_time := time_time healthy_world;
     groq_transcriptions := fun _ _ _ => Fails (RemoteError "503 Service Unavailable");
     groq_chat := groq_chat healthy_world;
     emotion_post := emotion_post healthy_world;
     translator := translator healthy_world;
     elevenlabs_generate := elevenlabs_generate healthy_world;
     gtts := gtts healthy_world |}.

(** The healthy world with synthesis services whose streams break after
    the first chunk. *)
Definition stuttering_world : world :=
  {| fs := fs healthy_world;
     open_for_writing := open_for_writing healthy_world;
     disk_write := disk_write healthy_world;
     environ := environ healthy_world;
     time_time := time_time healthy_world;
     groq_transcriptions := groq_transcriptions healthy_world;
     groq_chat := groq_chat healthy_world;
     emotion_post := emotion_post healthy_world;
     translator := translator healthy_world;
     elevenlabs_generate :=
       fun _ _ _ =>
         Replies (Some {| yielded := [[x49; x44]];
                          interrupted := Some (RemoteError "connection reset") |});
     gtts := fun _ _ =>
               Replies {| yielded := [[x49; x44]];
                          interrupted := Some (RemoteError "429 (Too Many Requests)") |} |}.

(** ** Vocabulary of the statements *)

(** [k] occurs in [s] as a contiguous run of characters. *)
Definition is_substring (k s : string) : Prop :=
  exists before after, s = (before ++ k ++ after)%string.

(** The entry a scan of [items] stops at: it matches, and nothing before
    it in the table does. *)
Definition first_match (items : list (string * string)) (text k q : string)
  : Prop :=
  exists before after,
    items = before ++ (k, q) :: after
    /\ is_substring k (PyStr.lower text)
    /\ forall k' q', In (k', q') before -> ~ is_substring k' (PyStr.lower text).

(** The state after [new] more events. *)
Definition with_events (s : state) (new : list event) : state :=
  {| conversation_memory := conversation_memory s; trace := trace s ++ new |}.

(** The state after [new] more events and [turns] more turns. *)
Definition advanced (s : state) (turns : list turn) (new : list event) : state :=
  {| conversation_memory := conversation_memory s ++ turns;
     trace := trace s ++ new |}.

(** The text [process_inputs] goes on with: the typed text when it is
    there and not empty, the transcript otherwise. *)
Definition effective_text (text_input : option string) (speech_to_text_output : string)
  : string :=
  if PyStr.truthy_opt text_input then str_value text_input
  else speech_to_text_output.

(** The three turns appended for the text [u] before the final response is
    requested. *)
Definition lookup_turns (u : string) : list turn :=
  [ Turn user u;
    Turn system (symptom_checker u);
    Turn system (fetch_medical_knowledge u) ].

(** The audio branch of [process_inputs] runs. *)
Definition audio_given (w : world) (audio_filepath : option string) : bool :=
  PyStr.truthy_opt audio_filepath && path_exists w (str_value audio_filepath).

(** The exception [open(path, "rb")] raises on a path that exists and
    cannot be read, if [path] is one. *)
Definition open_failure (w : world) (path : string) : option exn :=
  match fs w path with
  | Some Directory =>
      Some (IsADirectoryError ("[Errno 21] Is a directory: '" ++ path ++ "'"))
  | Some Forbidden =>
      Some (PermissionError ("[Errno 13] Permission denied: '" ++ path ++ "'"))
  | _ => None
  end.

(** An image path is given and names something that cannot be read. *)
Definition image_unreadable (w : world) (image_filepath : option string) : bool :=
  PyStr.truthy_opt image_filepath
  && match open_failure w (str_value image_filepath) with
     | Some _ => true
     | None => false
     end.

(** What the image branch does to the outside: it reads the file and sends
    one completion request with the encoded image. *)
Definition image_events (w : world) (image_filepath : option string)
  : list event :=
  match fs w (str_value image_filepath) with
  | Some (Readable data) =>
      if PyStr.truthy_opt image_filepath
      then [ EvRead (str_value image_filepath);
             EvChat system_prompt
               (image_url (Some (Base64.text_of_chars (Base64.b64encode data))))
               "llama-3.2-11b-vision-preview" ]
      else []
  | _ => []
  end.

(** The exception a request ends in once it is past the credential
    check: what [open] raises on an image that cannot be read, the unbound
    local when the image path names nothing, and otherwise the rejected
    keyword of the request for the final response. *)
Definition compose_failure (w : world) (image_filepath : option string) : exn :=
  if PyStr.truthy_opt image_filepath
  then match fs w (str_value image_filepath) with
       | None =>
           UnboundLocalError
             "cannot access local variable 'encoded_image' where it is not associated with a value"
       | Some (Readable _) =>
           TypeError
             "analyze_image_with_query() got an unexpected keyword argument 'memory'"
       | Some Directory =>
           IsADirectoryError
             ("[Errno 21] Is a directory: '" ++ str_value image_filepath ++ "'")
       | Some Forbidden =>
           PermissionError
             ("[Errno 13] Permission denied: '" ++ str_value image_filepath ++ "'")
       end
  else TypeError
         "analyze_image_with_query() got an unexpected keyword argument 'memory'".

(** The turns a request past the credential check appends for the text
    [u]: the user turn and, unless reading the image has raised in
    between, the two lookups. *)
Definition request_turns (w : world) (image_filepath : option string) (u : string)
  : list turn :=
  if image_unreadable w image_filepath then [Turn user u] else lookup_turns u.

(** The two triples [process_inputs] returns early. *)
Definition no_input_triple : triple :=
  ("No input provided", "No doctor response", None).
Definition missing_key_triple : triple :=
  ("Error: Missing GROQ API Key", "No doctor response", None).

(** An event of the speech-to-text step: the credential lookup or the
    transcription request. *)
Definition is_transcription_event (e : event) : bool :=
  match e with
  | EvEnvGet _ | EvTranscribe _ _ _ | EvEmotion _ => true
  | _ => false
  end.

(** A request to the vision-language service. *)
Definition is_chat_event (e : event) : bool :=
  match e with EvChat _ _ _ => true | _ => false end.

(** A value that is [None] or the empty string. *)
Definition absent_or_empty (o : option string) : Prop :=
  o = None \/ o = Some "".

(** What [transcribe_with_groq] hands back, read off the world. *)
Definition transcription_result (w : world) (stt_model audio_filepath language : string)
  : string :=
  match fs w audio_filepath with
  | None => "Error: Audio file not found."
  | Some (Readable audio_file) =>
      match groq_transcriptions w stt_model audio_file language with
      | Fails _ => "Error: Failed to transcribe audio."
      | Replies None => "Error: No transcription result."
      | Replies (Some text) => text
      end
  | Some _ => "Error: Failed to transcribe audio."
  end.

(** What [transcribe_with_groq] does to the outside. *)
Definition transcription_events (w : world) (stt_model audio_filepath language : string)
  : list event :=
  match fs w audio_filepath with
  | Some (Readable _) =>
      [EvRead audio_filepath; EvTranscribe stt_model audio_filepath language]
  | _ => []
  end.

(** What [detect_emotion] does to the outside. *)
Definition emotion_events (w : world) (audio_filepath : string) : list event :=
  EvEnvGet "EMOTION_API_KEY"
  :: (if PyStr.truthy_opt (environ w "EMOTION_API_KEY")
      then match fs w audio_filepath with
           | Some (Readable _) => [EvRead audio_filepath; EvEmotion audio_filepath]
           | _ => []
           end
      else []).

(** What the audio branch of [process_inputs] does to the outside once the
    key is found. *)
Definition audio_events (w : world) (audio_filepath : string) : list event :=
  EvEnvGet "GROQ_API_KEY"
  :: transcription_events w "whisper-large-v3" audio_filepath "auto"
  ++ emotion_events w audio_filepath.

(** Boolean checks of the bit arithmetic of one base64 group, run over all
    the values they range over. *)
Module Base64Checks.
Import Base64.

(** A six-bit value survives the alphabet. *)
Definition sextet_ok (n : N) : bool :=
  match sextet_of_char (char_of_sextet n) with
  | Some m => N.eqb m n
  | None => false
  end.

(** First byte of a group: [b0] and the high four bits [z] of the next. *)
Definition head_ok (b0 z : N) : bool :=
  let v0 := N.shiftr b0 2 in
  let v1 := N.lor (N.shiftl (N.land b0 3) 4) z in
  (v0 <? 64)%N && (v1 <? 64)%N
  && N.eqb (N.lor (N.shiftl v0 2) (N.shiftr v1 4)) b0.

(** Second byte: [b1] between two bits [x] of the byte before and two
    bits [y] of the byte after. *)
Definition middle_ok (x b1 y : N) : bool :=
  let v1 := N.lor (N.shiftl x 4) (N.shiftr b1 4) in
  let v2 := N.lor (N.shiftl (N.land b1 15) 2) y in
  (v1 <? 64)%N && (v2 <? 64)%N
  && N.eqb (N.lor (N.shiftl (N.land v1 15) 4) (N.shiftr v2 2)) b1.

(** Third byte: [b2] after the low four bits [x] of the byte before. *)
Definition last_ok (x b2 : N) : bool :=
  let v2 := N.lor (N.shiftl x 2) (N.shiftr b2 6) in
  let v3 := N.land b2 63 in
  (v2 <? 64)%N && (v3 <? 64)%N
  && N.eqb (N.lor (N.shiftl (N.land v2 3) 6) v3) b2.

Definition small_ok (b : N) : bool :=
  (N.land b 3 <? 4)%N && (N.land b 15 <? 16)%N
  && (N.shiftr b 4 <? 16)%N && (N.shiftr b 6 <? 4)%N.

End Base64Checks.

(** ** voice_of_the_doctor.py: the voice-only orchestrator *)

Module VoiceOfTheDoctor.
Section Orchestrator.

Variable w : world.

(** [GoogleTranslator(source='auto', target=target).translate(text)];
    whatever the client raises goes to the caller. *)
Definition google_translate (text target : string) : M string :=
  emit (EvTranslate text target) ;;
  lift_remote (translator w text target).

(** [process_inputs] of voice_of_the_doctor.py from "Translate and
    generate speech output" to its last line. *)
Definition speak_response
    (language speech_to_text_output doctor_response : string) : M triple :=
  if negb (String.eqb language "English")
  then
    doctor_response <-
      google_translate doctor_response (PyStr.lower language) ;;
    audio_file <-
      call def_text_to_speech_with_gtts 0
        ["input_text"; "output_filepath"; "lang"]
        (text_to_speech_with_gtts w doctor_response "final" language) ;;
    ret (speech_to_text_output, doctor_response, Some audio_file)
  else
    audio_file <-
      call def_text_to_speech_with_elevenlabs 0
        ["input_text"; "output_filepath"]
        (text_to_speech_with_elevenlabs w doctor_response "final") ;;
    ret (speech_to_text_output, doctor_response, audio_file).

(** [process_inputs] of voice_of_the_doctor.py, with its three
    parameters. *)
Definition process_inputs
    (audio_filepath image_filepath : option string) (language : string)
  : M triple :=
  if is_None audio_filepath || negb (path_exists w (str_value audio_filepath))
  then ret ("No audio file provided", "No doctor response", None)
  else
    GROQ_API_KEY <- environ_get w "GROQ_API_KEY" ;;
    if negb (PyStr.truthy_opt GROQ_API_KEY)
    then ret ("Error: Missing GROQ API Key", "No doctor response", None)
    else
      speech_to_text_output <-
        call def_transcribe_with_groq 0
          ["GROQ_API_KEY"; "audio_filepath"; "stt_model"]
          (transcribe_with_groq w "whisper-large-v3" (str_value audio_filepath)
             (str_value GROQ_API_KEY) "auto") ;;
      doctor_response <-
        (if PyStr.truthy_opt image_filepath
            && path_exists w (str_value image_filepath)
         then
           encoded_image <-
             call def_encode_image 1 [] (encode_image w (str_value image_filepath)) ;;
           call def_analyze_image_with_query 0 ["query"; "encoded_image"; "model"]
             (analyze_image_with_query w
                (system_prompt ++ " " ++ speech_to_text_output)%string
                (Some encoded_image) "llama-3.2-11b-vision-preview")
         else ret "No image provided for me to analyze.") ;;
      speak_response language speech_to_text_output doctor_response.

End Orchestrator.
End VoiceOfTheDoctor.

(** ** Serving several requests *)

(** One call of gradio_app.py's [process_inputs], with the world it runs
    in. *)
Record request : Type := {
  req_world : world;
  req_audio : option string;
  req_image : option string;
  req_text : option string;
  req_language : string
}.

(** The interface calls [process_inputs] once per submission; the list
    [conversation_memory] lives on from one call to the next, whether the
    call returns or raises. *)
Fixpoint serve (requests : list request) (s : state) : state :=
  match requests with
  | [] => s
  | r :: rest =>
      serve rest
        (snd (process_inputs (req_world r) (req_audio r) (req_image r)
                (req_text r) (req_language r) s))
  end.

(** ** More vocabulary *)

(** Translation, synthesis, creating or writing a file, or playing it. *)
Definition is_output_event (e : event) : bool :=
  match e with
  | EvTranslate _ _ | EvElevenLabs _ | EvGtts _ _
  | EvCreate _ | EvWrite _ _ | EvPlay _ => true
  | _ => false
  end.

Definition is_assistant_turn (t : turn) : bool :=
  match turn_role t with assistant => true | _ => false end.

(** The first, respectively last, character of a string is white space. *)
Definition starts_with_space (s : string) : bool :=
  match s with
  | EmptyString => false
  | String c _ => PyStr.is_space c
  end.

Fixpoint ends_with_space (s : string) : bool :=
  match s with
  | EmptyString => false
  | String c EmptyString => PyStr.is_space c
  | String _ r => ends_with_space r
  end.

(** A character of the base64 alphabet, or the padding character. *)
Definition is_base64_char (c : ascii) : bool :=
  match Base64.sextet_of_char c with
  | Some _ => true
  | None => Ascii.eqb c Base64.pad
  end.

Fixpoint all_chars (p : ascii -> bool) (s : string) : bool :=
  match s with
  | EmptyString => true
  | String c r => p c && all_chars p r
  end.

(** What [detect_emotion] hands back, read off the world. *)
Definition emotion_result (w : world) (audio_filepath : string) : string :=
  if PyStr.truthy_opt (environ w "EMOTION_API_KEY")
  then match fs w audio_filepath with
       | Some (Readable audio_file) =>
           match emotion_post w audio_file with
           | Replies (status_code, Some emotion) =>
               if (status_code =? 200)%Z then emotion else "neutral"
           | _ => "neutral"
           end
       | _ => "neutral"
       end
  else "neutral".

(** What [analyze_image_with_query] hands back, read off the world. *)
Definition analysis_result (w : world) (query : string)
    (encoded_image : option string) (model : string) : string :=
  match groq_chat w query (image_url encoded_image) model with
  | Replies (Some (first_choice :: _)) => PyStr.strip first_choice
  | Replies _ => "Error: No valid response from the model."
  | Fails e => ("Error during image analysis: " ++ str_of_exn e)%string
  end.

(** What the voice-only [process_inputs] asks the model, and what it
    takes as the doctor's response before translation, read off the
    world. *)
Definition voice_only_query (w : world) (audio_filepath : string) : string :=
  (system_prompt ++ " "
   ++ transcription_result w "whisper-large-v3" audio_filepath "auto")%string.

Definition voice_only_response
    (w : world) (audio_filepath : string) (image_filepath : option string)
  : string :=
  match fs w (str_value image_filepath) with
  | Some (Readable data) =>
      if PyStr.truthy_opt image_filepath
      then analysis_result w (voice_only_query w audio_filepath)
             (Some (Base64.text_of_chars (Base64.b64encode data)))
             "llama-3.2-11b-vision-preview"
      else "No image provided for me to analyze."
  | _ => "No image provided for me to analyze."
  end.

(** What the voice-only [process_inputs] does to the outside before it
    translates and speaks. *)
Definition voice_only_events
    (w : world) (audio_filepath : string) (image_filepath : option string)
  : list event :=
  EvEnvGet "GROQ_API_KEY"
  :: transcription_events w "whisper-large-v3" audio_filepath "auto"
  ++ match fs w (str_value image_filepath) with
     | Some (Readable data) =>
         if PyStr.truthy_opt image_filepath
         then [ EvRead (str_value image_filepath);
                EvChat (voice_only_query w audio_filepath)
                  (image_url (Some (Base64.text_of_chars (Base64.b64encode data))))
                  "llama-3.2-11b-vision-preview" ]
         else []
     | _ => []
     end.

(** ** Vocabulary for the synthesized file *)

Definition is_play_event (e : event) : bool :=
  match e with EvPlay _ => true | _ => false end.

(** The exception the first failing write raises, when the chunks are
    written to [path] one after the other. *)
Fixpoint first_write_failure (w : world) (path : string)
    (chunks : list (list byte)) : option exn :=
  match chunks with
  | [] => None
  | chunk :: rest =>
      match disk_write w path chunk with
      | Some e => Some e
      | None => first_write_failure w path rest
      end
  end.

(** The chunks that reach the file before the first failing write. *)
Fixpoint written_chunks (w : world) (path : string)
    (chunks : list (list byte)) : list (list byte) :=
  match chunks with
  | [] => []
  | chunk :: rest =>
      match disk_write w path chunk with
      | Some _ => []
      | None => chunk :: written_chunks w path rest
      end
  end.

(** What stops the saving of a stream to [path], if anything: the file
    cannot be opened, a write fails, or the stream breaks. *)
Definition saving_failure (w : world) (path : string)
    (chunks : list (list byte)) (broken : option exn) : option exn :=
  match open_for_writing w path with
  | Some e => Some e
  | None =>
      match first_write_failure w path chunks with
      | Some e => Some e
      | None => broken
      end
  end.

(** What the saving of a stream to [path] does to the outside. *)
Definition saving_events (w : world) (path : string)
    (chunks : list (list byte)) : list event :=
  match open_for_writing w path with
  | Some _ => []
  | None => EvCreate path :: map (EvWrite path) (written_chunks w path chunks)
  end.

(** The bytes in the file at [path] after the events of a run, [None] when
    the run has not created it. *)
Fixpoint file_written (path : string) (events : list event)
    (so_far : option (list byte)) : option (list byte) :=
  match events with
  | [] => so_far
  | EvCreate p :: rest =>
      file_written path rest (if String.eqb p path then Some [] else so_far)
  | EvWrite p chunk :: rest =>
      file_written path rest
        (if String.eqb p path
         then match so_far with
              | Some bytes => Some (bytes ++ chunk)
              | None => None
              end
         else so_far)
  | _ :: rest => file_written path rest so_far
  end.

(** The premium synthesis runs to its end: the client hands back a stream,
    the file opens, every chunk is written and the stream does not break. *)
Definition elevenlabs_completes (w : world) (input_text output_filepath : string)
  : bool :=
  match elevenlabs_generate w input_text "Aria" "eleven_turbo_v2" with
  | Replies (Some stream) =>
      match saving_failure w (timestamped w output_filepath)
              (truthy_chunks (yielded stream)) (interrupted stream) with
      | None => true
      | Some _ => false
      end
  | _ => false
  end.

(** What one request leaves in the conversation memory: nothing, the user
    turn alone, or the user turn with its two lookups. *)
Inductive record_kind : Type := nothing | user_only | with_lookups.

Definition recorded (entry : record_kind * string) : list turn :=
  match entry with
  | (nothing, _) => []
  | (user_only, u) => [Turn user u]
  | (with_lookups, u) => lookup_turns u
  end.

(** * Properties *)

(** ** Substring search *)

Lemma prefix_iff_append (k s : string) :
  String.prefix k s = true <-> exists after, s = (k ++ after)%string.
Proof.
  revert s; induction k as [|a k IH]; intros s.
  - destruct s; simpl; split; eauto.
  - destruct s as [|b s]; simpl.
    + split; [discriminate | intros [t Ht]; discriminate].
    + destruct (ascii_dec a b) as [->|Hab].
      * rewrite IH. split; intros [t Ht]; exists t.
        -- now rewrite Ht.
        -- now injection Ht.
      * split; [discriminate|]. intros [t Ht]. injection Ht as E _.
        now elim Hab.
Qed.

Lemma contains_iff_substring (k s : string) :
  PyStr.contains k s = true <-> is_substring k s.
Proof.
  induction s as [|c s IH]; cbn [PyStr.contains].
  - destruct (String.prefix k "") eqn:P.
    + split; [intros _|reflexivity].
      apply prefix_iff_append in P as [t Ht]. now exists "", t.
    + split; [discriminate|]. intros [b [t Ht]].
      destruct b; [|discriminate]. simpl in Ht.
      assert (String.prefix k "" = true) by (apply prefix_iff_append; eauto).
      congruence.
  - destruct (String.prefix k (String c s)) eqn:P.
    + split; [intros _|reflexivity].
      apply prefix_iff_append in P as [t Ht]. now exists "", t.
    + rewrite IH. split.
      * intros [b [t Ht]]. exists (String c b), t. simpl. now rewrite Ht.
      * intros [b [t Ht]]. destruct b as [|c' b].
        -- simpl in Ht.
           assert (String.prefix k (String c s) = true)
             by (apply prefix_iff_append; eauto).
           congruence.
        -- simpl in Ht. injection Ht as _ Ht. now exists b, t.
Qed.

Lemma not_contains_iff (k s : string) :
  PyStr.contains k s = false <-> ~ is_substring k s.
Proof.
  rewrite <- contains_iff_substring. destruct (PyStr.contains k s); split;
    congruence.
Qed.

(** ** Knowledge lookup *)

Lemma first_match_exists items text :
  (exists k, In k (map fst items) /\ is_substring k (PyStr.lower text)) ->
  exists k q, first_match items text k q.
Proof.
  induction items as [|[k0 q0] items IH]; intros [k [Hin Hk]].
  - destruct Hin.
  - destruct (PyStr.contains k0 (PyStr.lower text)) eqn:C.
    + exists k0, q0, [], items. repeat split.
      * now apply contains_iff_substring.
      * intros ? ? [].
    + apply not_contains_iff in C.
      destruct Hin as [Hin|Hin]; [simpl in Hin; subst k0; contradiction|].
      destruct IH as [k1 [q1 [before [after [E [S N]]]]]]; [eauto|].
      exists k1, q1, ((k0, q0) :: before), after. repeat split.
      * simpl. now rewrite E.
      * assumption.
      * intros k' q' [H|H]; [injection H as <- <-; assumption | eauto].
Qed.

Lemma symptom_loop_first_match items text k q :
  first_match items text k q ->
  symptom_loop items text = ("I see you mentioned " ++ k ++ ". " ++ q)%string.
Proof.
  intros [before [after [-> [S N]]]].
  induction before as [|[k0 q0] before IH]; simpl.
  - apply contains_iff_substring in S. now rewrite S.
  - assert (C : PyStr.contains k0 (PyStr.lower text) = false).
    { apply not_contains_iff. apply (N k0 q0). now left. }
    rewrite C. apply IH. intros k' q' H. apply (N k' q'). now right.
Qed.

Lemma knowledge_loop_first_match items text k q :
  first_match items text k q ->
  knowledge_loop items text = ("Medical Information: " ++ q)%string.
Proof.
  intros [before [after [-> [S N]]]].
  induction before as [|[k0 q0] before IH]; simpl.
  - apply contains_iff_substring in S. now rewrite S.
  - assert (C : PyStr.contains k0 (PyStr.lower text) = false).
    { apply not_contains_iff. apply (N k0 q0). now left. }
    rewrite C. apply IH. intros k' q' H. apply (N k' q'). now right.
Qed.

Lemma symptom_loop_no_match items text :
  (forall k, In k (map fst items) -> ~ is_substring k (PyStr.lower text)) ->
  symptom_loop items text = "Can you describe your symptoms in more detail?".
Proof.
  induction items as [|[k0 q0] items IH]; intros N; simpl; [reflexivity|].
  assert (C : PyStr.contains k0 (PyStr.lower text) = false).
  { apply not_contains_iff. apply N. now left. }
  rewrite C. apply IH. intros k H. apply N. now right.
Qed.

Lemma knowledge_loop_no_match items text :
  (forall k, In k (map fst items) -> ~ is_substring k (PyStr.lower text)) ->
  knowledge_loop items text
  = "I recommend consulting a healthcare professional for more detailed information.".
Proof.
  induction items as [|[k0 q0] items IH]; intros N; simpl; [reflexivity|].
  assert (C : PyStr.contains k0 (PyStr.lower text) = false).
  { apply not_contains_iff. apply N. now left. }
  rewrite C. apply IH. intros k H. apply N. now right.
Qed.

(** C4. For every free text [t]: if the lower-cased [t] contains some key
    of the follow-up table as a substring, [symptom_checker t] is exactly
    "I see you mentioned k. Q" for the first key [k] of the table, in table
    order, that occurs in it and the question [Q] the table gives for [k];
    if it contains no key, [symptom_checker t] is the generic request for
    more detail; and [fetch_medical_knowledge t] is the generic
    consult-a-professional sentence when no key of the fact table occurs. *)
Theorem knowledge_lookup_first_match_or_fallback (t : string) :
  ((exists k, In k (map fst symptom_mapping)
              /\ is_substring k (PyStr.lower t)) ->
   exists k q,
     first_match symptom_mapping t k q
     /\ symptom_checker t = ("I see you mentioned " ++ k ++ ". " ++ q)%string)
  /\ ((forall k, In k (map fst symptom_mapping)
                 -> ~ is_substring k (PyStr.lower t)) ->
      symptom_checker t = "Can you describe your symptoms in more detail?")
  /\ ((forall k, In k (map fst medical_knowledge)
                 -> ~ is_substring k (PyStr.lower t)) ->
      fetch_medical_knowledge t
      = "I recommend consulting a healthcare professional for more detailed information.").
Proof.
  split; [|split].
  - intros H. destruct (first_match_exists _ _ H) as [k [q F]].
    exists k, q. split; [assumption|].
    now apply symptom_loop_first_match.
  - apply symptom_loop_no_match.
  - apply knowledge_loop_no_match.
Qed.

Lemma knowledge_lookup_first_match_or_fallback_witness :
  (exists k q,
      first_match symptom_mapping "I have a HEADACHE and fever." k q
      /\ symptom_checker "I have a HEADACHE and fever."
         = ("I see you mentioned " ++ k ++ ". " ++ q)%string)
  /\ symptom_checker "My knee hurts"
     = "Can you describe your symptoms in more detail?"
  /\ fetch_medical_knowledge "My knee hurts"
     = "I recommend consulting a healthcare professional for more detailed information.".
Proof.
  split; [|split].
  - apply (proj1 (knowledge_lookup_first_match_or_fallback
                    "I have a HEADACHE and fever.")).
    exists "fever". split.
    + simpl. tauto.
    + apply contains_iff_substring. reflexivity.
  - apply (proj1 (proj2 (knowledge_lookup_first_match_or_fallback "My knee hurts"))).
    intros k Hin. apply not_contains_iff. simpl in Hin.
    repeat (destruct Hin as [<-|Hin]; [reflexivity|]). contradiction.
  - apply (proj2 (proj2 (knowledge_lookup_first_match_or_fallback "My knee hurts"))).
    intros k Hin. apply not_contains_iff. simpl in Hin.
    repeat (destruct Hin as [<-|Hin]; [reflexivity|]). contradiction.
Defined.

(** The example of brain_of_the_doctor.py: "headache" comes before "fever"
    in both tables. *)
Example symptom_checker_usage :
  symptom_checker "I have a headache and fever."
  = "I see you mentioned headache. Do you have any other symptoms like fever or nausea?".
Proof. reflexivity. Qed.

Example fetch_medical_knowledge_usage :
  fetch_medical_knowledge "I have a headache and fever."
  = "Medical Information: Headaches can be caused by stress, dehydration, or migraines. Drink water and rest.".
Proof. reflexivity. Qed.

Lemma symptom_loop_truthy items text :
  PyStr.truthy (symptom_loop items text) = true.
Proof.
  induction items as [|[k q] items IH]; simpl; [reflexivity|].
  now destruct (PyStr.contains k (PyStr.lower text)).
Qed.

Lemma knowledge_loop_truthy items text :
  PyStr.truthy (knowledge_loop items text) = true.
Proof.
  induction items as [|[k q] items IH]; simpl; [reflexivity|].
  now destruct (PyStr.contains k (PyStr.lower text)).
Qed.

Lemma truthy_nonempty s : PyStr.truthy s = true <-> s <> "".
Proof. destruct s; simpl; split; congruence. Qed.

(** ** The adapters never raise *)

Lemma analyze_image_with_query_returns w query encoded_image model s :
  exists text,
    analyze_image_with_query w query encoded_image model s
    = (Returns text, with_events s [EvChat query (image_url encoded_image) model]).
Proof.
  unfold analyze_image_with_query, try_except, bind, emit, lift_remote, with_events.
  destruct (groq_chat w query (image_url encoded_image) model) as [[[|c l]|]|e];
    simpl; eexists; reflexivity.
Qed.

Lemma with_events_nothing s : with_events s [] = s.
Proof. destruct s. unfold with_events; simpl. now rewrite app_nil_r. Qed.

Lemma transcribe_with_groq_returns w stt_model audio_filepath key language s :
  transcribe_with_groq w stt_model audio_filepath key language s
  = (Returns (transcription_result w stt_model audio_filepath language),
     with_events s (transcription_events w stt_model audio_filepath language)).
Proof.
  unfold transcribe_with_groq, transcription_result, transcription_events,
    path_exists, read_binary.
  destruct (fs w audio_filepath) as [[audio_file| |]|]; cbn [negb];
    try (rewrite with_events_nothing; reflexivity).
  unfold try_except, bind, emit, lift_remote, with_events; simpl.
  destruct (groq_transcriptions w stt_model audio_file language) as [[text|]|e];
    simpl; rewrite <- ?app_assoc; reflexivity.
Qed.

Lemma detect_emotion_returns w audio_filepath s :
  exists emotion,
    detect_emotion w audio_filepath s
    = (Returns emotion, with_events s (emotion_events w audio_filepath)).
Proof.
  unfold detect_emotion, emotion_events, environ_get, read_binary, with_events.
  unfold try_except, bind, emit, lift_remote; simpl.
  destruct (PyStr.truthy_opt (environ w "EMOTION_API_KEY")); simpl.
  - destruct (fs w audio_filepath) as [[audio_file| |]|]; simpl;
      try (eexists; reflexivity).
    destruct (emotion_post w audio_file) as [[status [e|]]|e]; simpl;
      try destruct (status =? 200)%Z; simpl; rewrite <- ?app_assoc;
      eexists; reflexivity.
  - eexists; reflexivity.
Qed.

Lemma bind_Returns {A B} (m : M A) (k : A -> M B) s a s' :
  m s = (Returns a, s') -> bind m k s = k a s'.
Proof. unfold bind. now intros ->. Qed.

Lemma bind_Raises {A B} (m : M A) (k : A -> M B) s e s' :
  m s = (Raises e, s') -> bind m k s = (Raises e, s').
Proof. unfold bind. now intros ->. Qed.

Lemma encode_image_existing w p data s :
  fs w p = Some (Readable data) ->
  encode_image w p s
  = (Returns (Base64.text_of_chars (Base64.b64encode data)),
     with_events s [EvRead p]).
Proof.
  intros F. unfold encode_image, path_exists, read_binary. now rewrite F.
Qed.

Lemma encode_image_missing w p s :
  fs w p = None ->
  encode_image w p s
  = (Raises (FileNotFoundError ("Error: Image file '" ++ p ++ "' not found.")), s).
Proof.
  intros F. unfold encode_image, path_exists. now rewrite F.
Qed.

(** On a path that is there and cannot be read, [encode_image] raises what
    [open] raises. *)
Lemma encode_image_unreadable w p e s :
  open_failure w p = Some e ->
  encode_image w p s = (Raises e, s).
Proof.
  unfold open_failure, encode_image, path_exists, read_binary.
  destruct (fs w p) as [[data| |]|]; intros [= <-]; reflexivity.
Qed.

(** ** The orchestrator *)

(** Normalises the state reached after a run of appends. *)
Ltac settle_state :=
  unfold advanced, with_events, bind, memory_append, emit, raise,
    read_encoded_image, ret;
  simpl; rewrite <- ?app_assoc, ?app_nil_r; try reflexivity.

(** The call that asks for the final response passes [memory=], which
    [analyze_image_with_query] does not take: the body never runs. *)
Lemma compose_call_raises {A} (body : M A) :
  call def_analyze_image_with_query 0
    ["query"; "encoded_image"; "model"; "memory"] body
  = raise (TypeError
             "analyze_image_with_query() got an unexpected keyword argument 'memory'").
Proof. reflexivity. Qed.

(** The call of the premium synthesis passes [language=], which
    [text_to_speech_with_elevenlabs] does not take. *)
Lemma synthesis_call_raises {A} (body : M A) :
  call def_text_to_speech_with_elevenlabs 0
    ["input_text"; "output_filepath"; "language"] body
  = raise (TypeError
             "text_to_speech_with_elevenlabs() got an unexpected keyword argument 'language'").
Proof. reflexivity. Qed.

(** From "Combine text inputs" on, [process_inputs] appends the user turn,
    runs the image branch, appends the two lookups and then fails where it
    asks for the final response; when the image cannot be read it fails in
    the image branch, with the user turn alone appended. *)
Lemma process_inputs_rest_outcome w i t lang stt emo s :
  process_inputs_rest w i t lang stt emo s
  = (Raises (compose_failure w i),
     advanced s (request_turns w i (effective_text t stt)) (image_events w i)).
Proof.
  unfold process_inputs_rest. fold (effective_text t stt).
  set (u := effective_text t stt). unfold request_turns, lookup_turns.
  pose proof (symptom_loop_truthy symptom_mapping u) as Hs.
  fold (symptom_checker u) in Hs.
  pose proof (knowledge_loop_truthy medical_knowledge u) as Hk.
  fold (fetch_medical_knowledge u) in Hk.
  generalize dependent (symptom_checker u).
  generalize dependent (fetch_medical_knowledge u).
  intros mi Hmi sa Hsa. rewrite Hmi, Hsa.
  change (call def_analyze_image_with_query 0
            ["query"; "encoded_image"; "model"; "memory"] ?b)
    with (@raise string
            (TypeError
               "analyze_image_with_query() got an unexpected keyword argument 'memory'")).
  change (call def_encode_image 1 [] ?b) with b.
  change (call def_analyze_image_with_query 0 ["query"; "encoded_image"; "model"] ?b)
    with b.
  unfold compose_failure, image_events, image_unreadable, open_failure,
    path_exists.
  destruct (PyStr.truthy_opt i) eqn:Ti;
    destruct (fs w (str_value i)) as [[data| |]|] eqn:F; cbn [andb negb];
    try solve [settle_state].
  - unfold bind at 1. unfold memory_append at 1.
    match goal with
    | |- bind _ _ ?s0 = _ =>
        destruct (analyze_image_with_query_returns w system_prompt
                    (Some (Base64.text_of_chars (Base64.b64encode data)))
                    "llama-3.2-11b-vision-preview"
                    (with_events s0 [EvRead (str_value i)])) as [ia Hia]
    end.
    unfold bind. rewrite (encode_image_existing _ _ data) by assumption.
    rewrite Hia. settle_state.
  - unfold bind at 1. unfold memory_append at 1. unfold bind.
    rewrite (encode_image_unreadable _ _
               (IsADirectoryError
                  ("[Errno 21] Is a directory: '" ++ str_value i ++ "'")))
      by (unfold open_failure; now rewrite F).
    settle_state.
  - unfold bind at 1. unfold memory_append at 1. unfold bind.
    rewrite (encode_image_unreadable _ _
               (PermissionError
                  ("[Errno 13] Permission denied: '" ++ str_value i ++ "'")))
      by (unfold open_failure; now rewrite F).
    settle_state.
Qed.

(** The first [if] leaves the state alone. *)
Lemma no_input_given_state a i t s : snd (no_input_given a i t s) = s.
Proof. destruct a, i, t; reflexivity. Qed.

Lemma no_input_given_false_iff a i t s :
  no_input_given a i t s = (Returns false, s)
  <-> a <> None \/ i <> None \/ exists x, t = Some x /\ PyStr.strip x <> "".
Proof.
  destruct a as [a|], i as [i|], t as [x|]; cbn;
    try (split; [intros _|reflexivity];
         (left; discriminate) || (right; left; discriminate)).
  - unfold ret. destruct (String.eqb_spec (PyStr.strip x) "") as [E|E].
    + split; [discriminate|]. intros [H|[H|[y [Hy N]]]]; congruence.
    + split; [intros _|reflexivity]. right; right. eauto.
  - split; [discriminate|]. intros [H|[H|[y [Hy _]]]]; congruence.
Qed.

Lemma process_inputs_text_None w lang s :
  process_inputs w None None None lang s
  = (Raises (AttributeError "'NoneType' object has no attribute 'strip'"), s).
Proof. reflexivity. Qed.

Lemma process_inputs_blank_text w x lang s :
  PyStr.strip x = "" ->
  process_inputs w None None (Some x) lang s = (Returns no_input_triple, s).
Proof.
  intros E. unfold process_inputs, no_input_given, py_and, bind, ret, strip_method.
  cbn. now rewrite E.
Qed.

Lemma process_inputs_missing_key w a i t lang s :
  no_input_given a i t s = (Returns false, s) ->
  audio_given w a = true ->
  PyStr.truthy_opt (environ w "GROQ_API_KEY") = false ->
  process_inputs w a i t lang s
  = (Returns missing_key_triple, with_events s [EvEnvGet "GROQ_API_KEY"]).
Proof.
  intros V A K. unfold process_inputs.
  rewrite (bind_Returns _ _ _ _ _ V). unfold audio_given in A. rewrite A.
  unfold bind, environ_get, emit, ret; simpl. now rewrite K.
Qed.

Lemma process_inputs_with_audio w a i t lang s :
  no_input_given a i t s = (Returns false, s) ->
  audio_given w a = true ->
  PyStr.truthy_opt (environ w "GROQ_API_KEY") = true ->
  process_inputs w a i t lang s
  = (Raises (compose_failure w i),
     advanced s
       (request_turns w i
          (effective_text t
             (transcription_result w "whisper-large-v3" (str_value a) "auto")))
       (audio_events w (str_value a) ++ image_events w i)).
Proof.
  intros V A K. unfold process_inputs.
  rewrite (bind_Returns _ _ _ _ _ V). unfold audio_given in A. rewrite A.
  unfold environ_get.
  change (call def_transcribe_with_groq 0
            ["GROQ_API_KEY"; "audio_filepath"; "stt_model"; "language"] ?b) with b.
  change (call def_detect_emotion 1 [] ?b) with b.
  unfold bind at 1. unfold bind at 1. unfold emit at 1. unfold ret at 1.
  rewrite K. cbn [negb].
  unfold bind at 1. rewrite transcribe_with_groq_returns.
  unfold bind at 1.
  match goal with
  | |- context [detect_emotion w ?p ?s0] =>
      destruct (detect_emotion_returns w p s0) as [emo Hemo]; rewrite Hemo
  end.
  rewrite process_inputs_rest_outcome. unfold audio_events.
  f_equal. settle_state.
Qed.

Lemma process_inputs_without_audio w a i t lang s :
  no_input_given a i t s = (Returns false, s) ->
  audio_given w a = false ->
  process_inputs w a i t lang s
  = (Raises (compose_failure w i),
     advanced s (request_turns w i (effective_text t "")) (image_events w i)).
Proof.
  intros V A. unfold process_inputs.
  rewrite (bind_Returns _ _ _ _ _ V). unfold audio_given in A. rewrite A.
  apply process_inputs_rest_outcome.
Qed.

(** ** base64 round trip *)

Module Base64Facts.
Import Base64 Base64Checks.

(** Checking a property of small numbers by running through them. *)
Lemma forallb_below (k : nat) (P : N -> bool) :
  forallb P (map N.of_nat (seq 0 k)) = true ->
  forall n, (n < N.of_nat k)%N -> P n = true.
Proof.
  intros H n Hn. rewrite forallb_forall in H. apply H.
  rewrite <- (N2Nat.id n). apply in_map. apply in_seq. lia.
Qed.

Lemma sextet_roundtrip n :
  (n < 64)%N -> sextet_of_char (char_of_sextet n) = Some n.
Proof.
  intros Hn.
  assert (H : sextet_ok n = true).
  { apply (forallb_below 64); [vm_compute; reflexivity | exact Hn]. }
  unfold sextet_ok in H.
  destruct (sextet_of_char (char_of_sextet n)); [|discriminate].
  apply N.eqb_eq in H. now subst.
Qed.

Lemma head_checked b0 z :
  (b0 < 256)%N -> (z < 16)%N -> head_ok b0 z = true.
Proof.
  intros H0 Hz.
  apply (forallb_below 16 (fun z => head_ok b0 z)); [|exact Hz].
  apply (forallb_below 256
           (fun b0 => forallb (fun z => head_ok b0 z)
                        (map N.of_nat (seq 0 16))));
    [vm_compute; reflexivity | exact H0].
Qed.

Lemma middle_checked x b1 y :
  (x < 4)%N -> (b1 < 256)%N -> (y < 4)%N -> middle_ok x b1 y = true.
Proof.
  intros Hx H1 Hy.
  apply (forallb_below 4 (fun y => middle_ok x b1 y)); [|exact Hy].
  apply (forallb_below 256
           (fun b1 => forallb (fun y => middle_ok x b1 y)
                        (map N.of_nat (seq 0 4)))); [|exact H1].
  apply (forallb_below 4
           (fun x => forallb
                       (fun b1 => forallb (fun y => middle_ok x b1 y)
                                    (map N.of_nat (seq 0 4)))
                       (map N.of_nat (seq 0 256))));
    [vm_compute; reflexivity | exact Hx].
Qed.

Lemma last_checked x b2 :
  (x < 16)%N -> (b2 < 256)%N -> last_ok x b2 = true.
Proof.
  intros Hx H2.
  apply (forallb_below 256 (fun b2 => last_ok x b2)); [|exact H2].
  apply (forallb_below 16
           (fun x => forallb (fun b2 => last_ok x b2)
                       (map N.of_nat (seq 0 256))));
    [vm_compute; reflexivity | exact Hx].
Qed.

Lemma small_checked b : (b < 256)%N -> small_ok b = true.
Proof.
  intros H. apply (forallb_below 256); [vm_compute; reflexivity | exact H].
Qed.

Lemma to_N_small (b : byte) : (Byte.to_N b < 256)%N.
Proof. pose proof (Byte.to_N_bounded b). lia. Qed.

Lemma byte_of_to_N (b : byte) : byte_of_N (Byte.to_N b) = b.
Proof. unfold byte_of_N. now rewrite Byte.of_to_N. Qed.

Lemma pad_outside : sextet_of_char pad = None.
Proof. reflexivity. Qed.

Lemma decode_encode3 b0 b1 b2 rest :
  b64decode (encode3 (Byte.to_N b0) (Byte.to_N b1) (Byte.to_N b2) ++ rest)
  = match b64decode rest with
    | Some tl => Some (b0 :: b1 :: b2 :: tl)
    | None => None
    end.
Proof.
  pose proof (to_N_small b0) as L0. pose proof (to_N_small b1) as L1.
  pose proof (to_N_small b2) as L2.
  pose proof (small_checked _ L0) as S0. pose proof (small_checked _ L1) as S1.
  pose proof (small_checked _ L2) as S2.
  unfold small_ok in S0, S1, S2.
  repeat rewrite andb_true_iff in S0, S1, S2. rewrite !N.ltb_lt in S0, S1, S2.
  destruct S0 as [[[A0 B0] C0] D0], S1 as [[[A1 B1] C1] D1], S2 as [[[A2 B2] C2] D2].
  pose proof (head_checked (Byte.to_N b0) (N.shiftr (Byte.to_N b1) 4) L0 C1) as H.
  pose proof (middle_checked (N.land (Byte.to_N b0) 3) (Byte.to_N b1) (N.shiftr (Byte.to_N b2) 6) A0 L1 D2) as Mi.
  pose proof (last_checked (N.land (Byte.to_N b1) 15) (Byte.to_N b2) B1 L2) as La.
  unfold head_ok in H. unfold middle_ok in Mi. unfold last_ok in La.
  cbv zeta in H, Mi, La.
  repeat rewrite andb_true_iff in H, Mi, La. rewrite !N.ltb_lt, !N.eqb_eq in H, Mi, La.
  destruct H as [[H1 H2] H3], Mi as [[M1 M2] M3], La as [[La1 La2] La3].
  unfold encode3. cbn [app b64decode].
  rewrite !sextet_roundtrip by assumption.
  unfold decode_byte0, decode_byte1, decode_byte2.
  rewrite H3, M3, La3, !byte_of_to_N. reflexivity.
Qed.

Lemma decode_encode2 b0 b1 :
  b64decode (encode2 (Byte.to_N b0) (Byte.to_N b1)) = Some [b0; b1].
Proof.
  pose proof (to_N_small b0) as L0. pose proof (to_N_small b1) as L1.
  pose proof (small_checked _ L0) as S0. pose proof (small_checked _ L1) as S1.
  unfold small_ok in S0, S1.
  repeat rewrite andb_true_iff in S0, S1. rewrite !N.ltb_lt in S0, S1.
  destruct S0 as [[[A0 B0] C0] D0], S1 as [[[A1 B1] C1] D1].
  pose proof (head_checked (Byte.to_N b0) (N.shiftr (Byte.to_N b1) 4) L0 C1) as H.
  assert (Z4 : (0 < 4)%N) by lia.
  pose proof (middle_checked (N.land (Byte.to_N b0) 3) (Byte.to_N b1) 0 A0 L1 Z4) as Mi.
  unfold head_ok in H. unfold middle_ok in Mi. cbv zeta in H, Mi.
  rewrite N.lor_0_r in Mi.
  repeat rewrite andb_true_iff in H, Mi. rewrite !N.ltb_lt, !N.eqb_eq in H, Mi.
  destruct H as [[H1 H2] H3], Mi as [[M1 M2] M3].
  unfold encode2. cbn [b64decode].
  rewrite !sextet_roundtrip by assumption. rewrite pad_outside.
  unfold decode_byte0, decode_byte1.
  rewrite H3, M3, !byte_of_to_N. reflexivity.
Qed.

Lemma decode_encode1 b0 :
  b64decode (encode1 (Byte.to_N b0)) = Some [b0].
Proof.
  pose proof (to_N_small b0) as L0.
  assert (Z16 : (0 < 16)%N) by lia.
  pose proof (head_checked (Byte.to_N b0) 0 L0 Z16) as H.
  unfold head_ok in H. cbv zeta in H. rewrite N.lor_0_r in H.
  repeat rewrite andb_true_iff in H. rewrite !N.ltb_lt, !N.eqb_eq in H.
  destruct H as [[H1 H2] H3].
  unfold encode1. cbn [b64decode].
  rewrite !sextet_roundtrip by assumption. rewrite pad_outside.
  unfold decode_byte0. rewrite H3, byte_of_to_N. reflexivity.
Qed.

Lemma b64decode_b64encode_steps rest :
  b64decode (b64encode rest) = Some rest
  /\ (forall a, b64decode (b64encode (a :: rest)) = Some (a :: rest))
  /\ (forall a b, b64decode (b64encode (a :: b :: rest)) = Some (a :: b :: rest)).
Proof.
  induction rest as [|c rest [IH0 [IH1 IH2]]].
  - split; [reflexivity|]. split; intros.
    + apply decode_encode1.
    + apply decode_encode2.
  - split; [apply IH1|]. split; [intros a; apply IH2|].
    intros a b. cbn [b64encode]. rewrite decode_encode3. now rewrite IH0.
Qed.

Theorem b64decode_b64encode data : b64decode (b64encode data) = Some data.
Proof. apply b64decode_b64encode_steps. Qed.

End Base64Facts.

(** ** Claims about the orchestrator *)

Lemma effective_text_without_transcript t : effective_text t "" = str_value t.
Proof. now destruct t as [[|c x]|]. Qed.

Lemma effective_text_typed x stt : x <> "" -> effective_text (Some x) stt = x.
Proof. destruct x; [congruence | reflexivity]. Qed.

Lemma advanced_nothing s : advanced s [] [] = s.
Proof. destruct s. unfold advanced; simpl. now rewrite !app_nil_r. Qed.

Lemma image_events_quiet w i :
  forallb (fun e => negb (is_transcription_event e)) (image_events w i) = true.
Proof.
  unfold image_events.
  destruct (fs w (str_value i)) as [[data| |]|];
    try destruct (PyStr.truthy_opt i); reflexivity.
Qed.

Lemma compose_failure_not_attribute_error w i msg :
  compose_failure w i <> AttributeError msg.
Proof.
  unfold compose_failure.
  destruct (PyStr.truthy_opt i); [|discriminate].
  destruct (fs w (str_value i)) as [[data| |]|]; discriminate.
Qed.

(** When no unreadable image stands in the way, the turns of a request are
    the user turn and its two lookups. *)
Lemma request_turns_readable w i u :
  image_unreadable w i = false -> request_turns w i u = lookup_turns u.
Proof. unfold request_turns. now intros ->. Qed.

Lemma image_unreadable_None w : image_unreadable w None = false.
Proof. reflexivity. Qed.

(** C1. The claim: a request that passes input validation and the
    credential check gets a value from every adapter call, and
    [process_inputs] returns a triple, with [None] for the audio when the
    synthesis raises.  The code: every such request ends in an exception.
    The call that asks for the final response passes [memory=], which
    [analyze_image_with_query] does not accept, so [TypeError] is raised
    outside any handler (or [UnboundLocalError] before it, when an image
    path is given that names no file, or what [open] raises, when it names
    something that cannot be read); translation and synthesis are never
    reached and no triple is returned. *)
Theorem process_inputs_raises_past_credentials w a i t lang s :
  no_input_given a i t s = (Returns false, s) ->
  (audio_given w a = true -> PyStr.truthy_opt (environ w "GROQ_API_KEY") = true) ->
  fst (process_inputs w a i t lang s) = Raises (compose_failure w i).
Proof.
  intros V K. destruct (audio_given w a) eqn:A.
  - now rewrite process_inputs_with_audio by auto.
  - now rewrite process_inputs_without_audio by auto.
Qed.

Lemma process_inputs_raises_past_credentials_witness :
  fst (process_inputs healthy_world None None
         (Some "I have a headache and fever") "en" initial_state)
  = Raises (TypeError
              "analyze_image_with_query() got an unexpected keyword argument 'memory'").
Proof.
  apply (process_inputs_raises_past_credentials healthy_world None None
           (Some "I have a headache and fever") "en" initial_state).
  - reflexivity.
  - intros _. reflexivity.
Defined.

(** C2. The claim: for a request with no audio, an existing image, empty
    text and language "en", the image is read and encoded, the
    vision-language adapter runs twice and a synthesized audio path comes
    back.  The code: the image is read and encoded and the adapter runs
    once, for the preliminary analysis; the second call is rejected with
    [TypeError] before its body runs, so there is one request to the
    service, no response and no audio path. *)
Theorem image_only_request_raises w image data lang s :
  image <> "" ->
  fs w image = Some (Readable data) ->
  process_inputs w None (Some image) (Some "") lang s
  = (Raises (TypeError
               "analyze_image_with_query() got an unexpected keyword argument 'memory'"),
     advanced s (lookup_turns "")
       [ EvRead image;
         EvChat system_prompt
           (image_url (Some (Base64.text_of_chars (Base64.b64encode data))))
           "llama-3.2-11b-vision-preview" ]).
Proof.
  intros N F.
  assert (T : PyStr.truthy image = true) by now apply truthy_nonempty.
  rewrite process_inputs_without_audio; [|reflexivity|reflexivity].
  unfold compose_failure, image_events, request_turns, image_unreadable,
    open_failure.
  cbn [str_value PyStr.truthy_opt]. rewrite F, T. reflexivity.
Qed.

Lemma image_only_request_raises_witness :
  process_inputs healthy_world None (Some "rash.jpg") (Some "") "en" initial_state
  = (Raises (TypeError
               "analyze_image_with_query() got an unexpected keyword argument 'memory'"),
     advanced initial_state (lookup_turns "")
       [ EvRead "rash.jpg";
         EvChat system_prompt "data:image/jpeg;base64,iVBORw=="
           "llama-3.2-11b-vision-preview" ]).
Proof.
  apply (image_only_request_raises healthy_world "rash.jpg" [x89; x50; x4e; x47]
           "en" initial_state).
  - discriminate.
  - reflexivity.
Defined.

(** On that request the vision-language service is asked once. *)
Example image_only_request_one_chat :
  length
    (filter is_chat_event
       (trace (snd (process_inputs healthy_world None (Some "rash.jpg") (Some "")
                      "en" initial_state))))
  = 1%nat.
Proof. reflexivity. Qed.

(** C3, as stated, fails: with all three fields absent the free text is
    [None], the condition calls [strip] on it and [process_inputs] raises
    [AttributeError] where the claim has it return the "no input" triple. *)
Lemma no_input_triple_all_absent_counterexample :
  absent_or_empty None
  /\ process_inputs healthy_world None None None "en" initial_state
     = (Raises (AttributeError "'NoneType' object has no attribute 'strip'"),
        initial_state)
  /\ fst (process_inputs healthy_world None None None "en" initial_state)
     <> Returns no_input_triple.
Proof.
  split; [now left|]. split; [reflexivity | discriminate].
Qed.

(** An empty audio path is not [None] either: the request goes past the
    first [if] and the lookups are appended to the memory. *)
Example empty_audio_path_is_an_input :
  absent_or_empty (Some "")
  /\ conversation_memory
       (snd (process_inputs healthy_world (Some "") None (Some "") "en" initial_state))
     = lookup_turns "".
Proof. split; [now right | reflexivity]. Qed.

(** C3 (amended). For every request whose audio path and image path are
    [None] and whose free text is a string that is empty once surrounding
    whitespace is stripped, [process_inputs] returns the fixed triple
    ("No input provided", "No doctor response", None) and leaves the state
    as it was: no adapter has run and nothing has been appended to the
    conversation memory. *)
Theorem no_input_triple_without_effects w x lang s :
  PyStr.strip x = "" ->
  process_inputs w None None (Some x) lang s
  = (Returns ("No input provided", "No doctor response", None), s).
Proof. apply process_inputs_blank_text. Qed.

Lemma no_input_triple_without_effects_witness :
  process_inputs healthy_world None None (Some "  ") "en" initial_state
  = (Returns ("No input provided", "No doctor response", None), initial_state).
Proof.
  apply (no_input_triple_without_effects healthy_world "  " "en" initial_state).
  reflexivity.
Defined.

(** C5. When both a typed text and a transcript are there, the text the
    pipeline goes on with is the typed one: it is the user turn, and both
    lookups are made on it.  When the audio path names no existing file,
    nothing of the transcription step happens (no credential lookup, no
    transcription request, no emotion request), and a request that is not
    stopped by the first check goes on with the free text, taken as empty
    when there is none.  (The turns are the user turn and its two lookups,
    [request_turns]: the user turn alone in the one case where reading the
    image raises before the lookups.) *)
Theorem effective_text_is_typed_text_or_free_text w a i t lang s :
  (forall x,
      t = Some x -> x <> "" ->
      audio_given w a = true ->
      PyStr.truthy_opt (environ w "GROQ_API_KEY") = true ->
      snd (process_inputs w a i t lang s)
      = advanced s (request_turns w i x)
          (audio_events w (str_value a) ++ image_events w i)
      /\ (image_unreadable w i = false ->
          request_turns w i x = lookup_turns x))
  /\ ((forall p, a = Some p -> fs w p = None) ->
      exists turns new,
        snd (process_inputs w a i t lang s) = advanced s turns new
        /\ forallb (fun e => negb (is_transcription_event e)) new = true
        /\ (no_input_given a i t s = (Returns false, s) ->
            turns = request_turns w i (str_value t)
            /\ (image_unreadable w i = false ->
                turns = lookup_turns (str_value t)))).
Proof.
  split.
  - intros x -> Nx A K.
    assert (V : no_input_given a i (Some x) s = (Returns false, s)).
    { apply no_input_given_false_iff. left. intros ->. discriminate. }
    rewrite process_inputs_with_audio by assumption.
    cbn [snd]. rewrite effective_text_typed by assumption.
    split; [reflexivity | apply request_turns_readable].
  - intros Missing.
    assert (A : audio_given w a = false).
    { unfold audio_given, path_exists. destruct a as [p|]; [|reflexivity].
      cbn [str_value]. rewrite (Missing p eq_refl). apply andb_false_r. }
    destruct (no_input_given a i t s) as [[[|]|e] s'] eqn:V.
    + exists [], []. unfold process_inputs, bind. rewrite V. cbn [snd].
      pose proof (no_input_given_state a i t s) as E. rewrite V in E.
      cbn [snd] in E. subst s'. rewrite advanced_nothing.
      split; [reflexivity|]. split; [reflexivity|]. intros [=].
    + pose proof (no_input_given_state a i t s) as E. rewrite V in E.
      cbn [snd] in E. subst s'.
      exists (request_turns w i (str_value t)), (image_events w i).
      rewrite process_inputs_without_audio by assumption.
      rewrite effective_text_without_transcript.
      split; [reflexivity|]. split; [apply image_events_quiet|].
      intros _. split; [reflexivity | apply request_turns_readable].
    + exists [], []. unfold process_inputs, bind. rewrite V. cbn [snd].
      pose proof (no_input_given_state a i t s) as E. rewrite V in E.
      cbn [snd] in E. subst s'. rewrite advanced_nothing.
      split; [reflexivity|]. split; [reflexivity|]. intros [=].
Qed.

Lemma effective_text_is_typed_text_or_free_text_witness :
  snd (process_inputs healthy_world (Some "voice.mp3") None
         (Some "I have a fever") "en" initial_state)
  = advanced initial_state (lookup_turns "I have a fever")
      (audio_events healthy_world "voice.mp3" ++ image_events healthy_world None)
  /\ exists turns new,
       snd (process_inputs healthy_world (Some "missing.mp3") None
              (Some "I have a fever") "en" initial_state)
       = advanced initial_state turns new
       /\ forallb (fun e => negb (is_transcription_event e)) new = true
       /\ (no_input_given (Some "missing.mp3") None (Some "I have a fever")
             initial_state = (Returns false, initial_state) ->
           turns = request_turns healthy_world None "I have a fever"
           /\ (image_unreadable healthy_world None = false ->
               turns = lookup_turns "I have a fever")).
Proof.
  split.
  - apply (proj1 (effective_text_is_typed_text_or_free_text healthy_world
                    (Some "voice.mp3") None (Some "I have a fever") "en"
                    initial_state) "I have a fever");
      [reflexivity | discriminate | reflexivity | reflexivity].
  - apply (proj2 (effective_text_is_typed_text_or_free_text healthy_world
                    (Some "missing.mp3") None (Some "I have a fever") "en"
                    initial_state)).
    intros p [= <-]. reflexivity.
Defined.

(** ** Saving a stream of audio *)

Lemma with_events_with_events s a b :
  with_events (with_events s a) b = with_events s (a ++ b).
Proof. unfold with_events; simpl. now rewrite <- app_assoc. Qed.

Lemma write_to_fp_outcome w path chunks s :
  write_to_fp w path chunks s
  = (match first_write_failure w path chunks with
     | Some e => Raises e
     | None => Returns tt
     end,
     with_events s (map (EvWrite path) (written_chunks w path chunks))).
Proof.
  revert s; induction chunks as [|chunk rest IH]; intros s; cbn.
  - now rewrite with_events_nothing.
  - unfold bind, file_write. destruct (disk_write w path chunk) as [e|]; cbn.
    + now rewrite with_events_nothing.
    + unfold emit. rewrite IH. cbn [map].
      destruct (first_write_failure w path rest); f_equal;
        unfold with_events; simpl; now rewrite <- app_assoc.
Qed.

Lemma write_chunks_outcome w path chunks s :
  write_chunks w path chunks s
  = (match first_write_failure w path (truthy_chunks chunks) with
     | Some e => Raises e
     | None => Returns tt
     end,
     with_events s
       (map (EvWrite path) (written_chunks w path (truthy_chunks chunks)))).
Proof.
  revert s; induction chunks as [|[|b chunk] rest IH]; intros s.
  - cbn. now rewrite with_events_nothing.
  - change (truthy_chunks ([] :: rest)) with (truthy_chunks rest).
    cbn [write_chunks]. unfold bind, ret. apply IH.
  - change (truthy_chunks ((b :: chunk) :: rest))
      with ((b :: chunk) :: truthy_chunks rest).
    cbn [write_chunks first_write_failure written_chunks].
    unfold bind, file_write.
    destruct (disk_write w path (b :: chunk)) as [e|].
    + unfold raise. now rewrite with_events_nothing.
    + unfold emit. rewrite IH. cbn [map].
      destruct (first_write_failure w path (truthy_chunks rest)); f_equal;
        unfold with_events; simpl; now rewrite <- app_assoc.
Qed.

Lemma gtts_save_outcome w audioobj savefile s :
  gtts_save w audioobj savefile s
  = (match saving_failure w savefile (yielded audioobj) (interrupted audioobj) with
     | Some e => Raises e
     | None => Returns tt
     end,
     with_events s (saving_events w savefile (yielded audioobj))).
Proof.
  unfold gtts_save, saving_failure, saving_events, open_wb, end_of_stream.
  destruct (open_for_writing w savefile) as [e|].
  - unfold bind, raise. now rewrite with_events_nothing.
  - unfold bind at 1. unfold emit at 1. unfold bind at 1.
    rewrite write_to_fp_outcome.
    destruct (first_write_failure w savefile (yielded audioobj)) as [e|].
    + f_equal. unfold with_events; simpl. now rewrite <- app_assoc.
    + destruct (interrupted audioobj) as [e|]; unfold raise, ret; f_equal;
        unfold with_events; simpl; now rewrite <- app_assoc.
Qed.

Lemma text_to_speech_with_gtts_outcome w input_text output_filepath lang s :
  text_to_speech_with_gtts w input_text output_filepath lang s
  = let lang_code := dict_get GTTS_SUPPORTED_LANGUAGES lang "en" in
    let path := timestamped w output_filepath in
    match gtts w input_text lang_code with
    | Fails e => (Raises e, with_events s [EvGtts input_text lang_code])
    | Replies audioobj =>
        match saving_failure w path (yielded audioobj) (interrupted audioobj) with
        | Some e =>
            (Raises e,
             with_events s
               (EvGtts input_text lang_code
                :: saving_events w path (yielded audioobj)))
        | None =>
            (Returns path,
             with_events s
               (EvGtts input_text lang_code
                :: saving_events w path (yielded audioobj) ++ [EvPlay path]))
        end
    end.
Proof.
  unfold text_to_speech_with_gtts. cbv zeta.
  generalize (dict_get GTTS_SUPPORTED_LANGUAGES lang "en"); intros code.
  generalize (timestamped w output_filepath); intros path.
  unfold bind at 1. unfold emit at 1. unfold bind at 1. unfold lift_remote.
  destruct (gtts w input_text code) as [audioobj|e]; [|reflexivity].
  unfold ret at 1. unfold bind at 1. rewrite gtts_save_outcome.
  destruct (saving_failure w path (yielded audioobj) (interrupted audioobj))
    as [e|].
  - f_equal. unfold with_events; simpl. now rewrite <- ?app_assoc.
  - unfold bind, play_audio, emit, ret. f_equal.
    unfold with_events; simpl. now rewrite <- !app_assoc.
Qed.

Lemma text_to_speech_with_gtts_returns_timestamped
    w input_text output_filepath lang s path :
  fst (text_to_speech_with_gtts w input_text output_filepath lang s) = Returns path ->
  path = timestamped w output_filepath.
Proof.
  rewrite text_to_speech_with_gtts_outcome. cbv zeta.
  destruct (gtts w input_text _) as [audioobj|e]; [|discriminate].
  destruct (saving_failure w _ _ _); [discriminate|]. now intros [= <-].
Qed.

Lemma text_to_speech_with_elevenlabs_outcome w input_text output_filepath s :
  text_to_speech_with_elevenlabs w input_text output_filepath s
  = let path := timestamped w output_filepath in
    match elevenlabs_generate w input_text "Aria" "eleven_turbo_v2" with
    | Replies (Some stream) =>
        match saving_failure w path (truthy_chunks (yielded stream))
                (interrupted stream) with
        | None =>
            (Returns (Some path),
             with_events s
               (EvElevenLabs input_text
                :: saving_events w path (truthy_chunks (yielded stream))
                ++ [EvPlay path]))
        | Some _ =>
            (Returns None,
             with_events s
               (EvElevenLabs input_text
                :: saving_events w path (truthy_chunks (yielded stream))))
        end
    | _ => (Returns None, with_events s [EvElevenLabs input_text])
    end.
Proof.
  unfold text_to_speech_with_elevenlabs, try_except. cbv zeta.
  generalize (timestamped w output_filepath); intros path.
  unfold bind at 1. unfold emit at 1. unfold bind at 1. unfold lift_remote.
  destruct (elevenlabs_generate w input_text "Aria" "eleven_turbo_v2")
    as [[stream|]|e]; [|reflexivity|reflexivity].
  unfold ret at 1. unfold saving_failure, saving_events, open_wb, end_of_stream.
  destruct (open_for_writing w path) as [e|].
  - unfold bind, raise, ret. f_equal.
  - unfold bind at 1. unfold emit at 1. unfold bind at 1.
    rewrite write_chunks_outcome.
    destruct (first_write_failure w path (truthy_chunks (yielded stream)))
      as [e|].
    + unfold ret. f_equal. unfold with_events; simpl. now rewrite <- !app_assoc.
    + destruct (interrupted stream) as [e|];
        unfold bind, raise, ret, play_audio, emit; f_equal;
        unfold with_events; simpl; now rewrite <- !app_assoc.
Qed.

(** ** Claims about the adapters *)

(** C6, as stated, fails: the transcript comes back as the service gave
    it, with its surrounding whitespace, not trimmed. *)
Lemma transcript_not_trimmed_counterexample :
  fs healthy_world "voice.mp3" = Some (Readable [x49; x44; x33])
  /\ groq_transcriptions healthy_world "whisper-large-v3" [x49; x44; x33] "auto"
     = Replies (Some " I have a cough ")
  /\ fst (transcribe_with_groq healthy_world "whisper-large-v3" "voice.mp3"
            "gsk_live" "auto" initial_state)
     = Returns " I have a cough "
  /\ fst (transcribe_with_groq healthy_world "whisper-large-v3" "voice.mp3"
            "gsk_live" "auto" initial_state)
     <> Returns (PyStr.strip " I have a cough ").
Proof.
  repeat split; try reflexivity. discriminate.
Qed.

(** C6 (amended). Every call of [transcribe_with_groq] returns a string
    and raises nothing: one fixed error string when the audio file does not
    exist, a different fixed error string when the remote call fails (or
    the file cannot be opened), and otherwise the text of the transcription
    exactly as the service returned it (a third fixed string when the
    service returns no transcription). *)
Theorem transcribe_with_groq_total w stt_model audio_filepath key language s :
  (exists text,
      fst (transcribe_with_groq w stt_model audio_filepath key language s)
      = Returns text)
  /\ (fs w audio_filepath = None ->
      fst (transcribe_with_groq w stt_model audio_filepath key language s)
      = Returns "Error: Audio file not found.")
  /\ (forall audio_file e,
         fs w audio_filepath = Some (Readable audio_file) ->
         groq_transcriptions w stt_model audio_file language = Fails e ->
         fst (transcribe_with_groq w stt_model audio_filepath key language s)
         = Returns "Error: Failed to transcribe audio.")
  /\ (forall audio_file text,
         fs w audio_filepath = Some (Readable audio_file) ->
         groq_transcriptions w stt_model audio_file language = Replies (Some text) ->
         fst (transcribe_with_groq w stt_model audio_filepath key language s)
         = Returns text)
  /\ (forall audio_file,
         fs w audio_filepath = Some (Readable audio_file) ->
         groq_transcriptions w stt_model audio_file language = Replies None ->
         fst (transcribe_with_groq w stt_model audio_filepath key language s)
         = Returns "Error: No transcription result.")
  /\ (forall e,
         open_failure w audio_filepath = Some e ->
         fst (transcribe_with_groq w stt_model audio_filepath key language s)
         = Returns "Error: Failed to transcribe audio.")
  /\ "Error: Audio file not found." <> "Error: Failed to transcribe audio.".
Proof.
  rewrite transcribe_with_groq_returns. cbn [fst].
  unfold transcription_result, open_failure.
  split; [eauto|]. split; [now intros ->|].
  split; [now intros ? ? -> ->|]. split; [now intros ? ? -> ->|].
  split; [now intros ? -> ->|]. split; [|discriminate].
  intros e. destruct (fs w audio_filepath) as [[data| |]|]; try discriminate;
    reflexivity.
Qed.

Lemma transcribe_with_groq_total_witness :
  fst (transcribe_with_groq healthy_world "whisper-large-v3" "missing.mp3"
         "gsk_live" "auto" initial_state)
  = Returns "Error: Audio file not found."
  /\ fst (transcribe_with_groq healthy_world "whisper-large-v3" "voice.mp3"
            "gsk_live" "auto" initial_state)
     = Returns " I have a cough ".
Proof.
  split.
  - apply (transcribe_with_groq_total healthy_world "whisper-large-v3"
             "missing.mp3" "gsk_live" "auto" initial_state).
    reflexivity.
  - apply (proj1 (proj2 (proj2 (proj2
             (transcribe_with_groq_total healthy_world "whisper-large-v3"
                "voice.mp3" "gsk_live" "auto" initial_state))))
             [x49; x44; x33] " I have a cough ");
      reflexivity.
Defined.

(** C7. For every path that names a file that can be read, decoding what
    [encode_image] returns gives back the bytes of the file exactly;
    whenever [encode_image] returns a payload at all, the path names such
    a file and the payload decodes to its bytes; and [encode_image] raises
    [FileNotFoundError] exactly when the path names no existing file (on a
    path that is there and cannot be read it raises what [open] raises). *)
Theorem encode_image_round_trip w image_path s :
  (forall data,
      fs w image_path = Some (Readable data) ->
      exists payload,
        fst (encode_image w image_path s) = Returns payload
        /\ Base64.b64decode (Base64.chars_of_text payload) = Some data)
  /\ ((exists msg, fst (encode_image w image_path s) = Raises (FileNotFoundError msg))
      <-> path_exists w image_path = false)
  /\ (forall payload,
         fst (encode_image w image_path s) = Returns payload ->
         exists data,
           fs w image_path = Some (Readable data)
           /\ Base64.b64decode (Base64.chars_of_text payload) = Some data).
Proof.
  assert (D : forall data,
             Base64.b64decode
               (Base64.chars_of_text (Base64.text_of_chars (Base64.b64encode data)))
             = Some data).
  { intros data. unfold Base64.chars_of_text, Base64.text_of_chars.
    rewrite list_ascii_of_string_of_list_ascii.
    apply Base64Facts.b64decode_b64encode. }
  split; [|split].
  - intros data F. rewrite (encode_image_existing _ _ data) by assumption.
    eexists. split; [reflexivity | apply D].
  - unfold path_exists. destruct (fs w image_path) as [[data| |]|] eqn:F.
    + rewrite (encode_image_existing _ _ data) by assumption.
      split; [intros [msg [=]] | discriminate].
    + erewrite encode_image_unreadable
        by (unfold open_failure; rewrite F; reflexivity).
      split; [intros [msg [=]] | discriminate].
    + erewrite encode_image_unreadable
        by (unfold open_failure; rewrite F; reflexivity).
      split; [intros [msg [=]] | discriminate].
    + rewrite encode_image_missing by assumption.
      split; [intros _; reflexivity | intros _; eexists; reflexivity].
  - intros payload. destruct (fs w image_path) as [[data| |]|] eqn:F.
    + rewrite (encode_image_existing _ _ data) by assumption.
      intros [= <-]. exists data. split; [reflexivity | apply D].
    + erewrite encode_image_unreadable
        by (unfold open_failure; rewrite F; reflexivity).
      intros [=].
    + erewrite encode_image_unreadable
        by (unfold open_failure; rewrite F; reflexivity).
      intros [=].
    + rewrite encode_image_missing by assumption. intros [=].
Qed.

Lemma encode_image_round_trip_witness :
  exists payload,
    fst (encode_image healthy_world "rash.jpg" initial_state) = Returns payload
    /\ Base64.b64decode (Base64.chars_of_text payload) = Some [x89; x50; x4e; x47].
Proof.
  apply (proj1 (encode_image_round_trip healthy_world "rash.jpg" initial_state)).
  reflexivity.
Defined.

(** C8. The claim: two distinct invocations of [text_to_speech_with_gtts]
    never produce the same output path.  The code: the suffix is the clock
    cut to whole seconds, so two invocations with the same [output_filepath]
    whose clock readings fall in the same second return the same path, and
    the second one writes over the file of the first. *)
Theorem gtts_same_second_same_path
    w1 w2 text1 text2 output_filepath lang1 lang2 s1 s2 path1 path2 :
  int_of_float (time_time w1) = int_of_float (time_time w2) ->
  fst (text_to_speech_with_gtts w1 text1 output_filepath lang1 s1) = Returns path1 ->
  fst (text_to_speech_with_gtts w2 text2 output_filepath lang2 s2) = Returns path2 ->
  path1 = path2.
Proof.
  intros T R1 R2.
  apply text_to_speech_with_gtts_returns_timestamped in R1, R2.
  subst path1 path2. unfold timestamped. now rewrite T.
Qed.

Lemma gtts_same_second_same_path_witness :
  int_of_float (time_time healthy_world)
  = int_of_float (time_time healthy_world_later)
  /\ fst (text_to_speech_with_gtts healthy_world "Drink water." "final"
            "English" initial_state)
     = Returns "final_1700000000.mp3"
  /\ fst (text_to_speech_with_gtts healthy_world_later "Rest well." "final"
            "Hindi" initial_state)
     = Returns "final_1700000000.mp3"
  /\ "final_1700000000.mp3" = "final_1700000000.mp3".
Proof.
  split; [reflexivity|]. split; [reflexivity|]. split; [reflexivity|].
  apply (gtts_same_second_same_path healthy_world healthy_world_later
           "Drink water." "Rest well." "final" "English" "Hindi"
           initial_state initial_state);
    reflexivity.
Defined.

(** Two invocations one after the other within one second: one file name,
    written twice. *)
Example gtts_second_call_overwrites :
  let r1 := text_to_speech_with_gtts healthy_world "Drink water." "final"
              "English" initial_state in
  let r2 := text_to_speech_with_gtts healthy_world_later "Rest well." "final"
              "Hindi" (snd r1) in
  fst r1 = Returns "final_1700000000.mp3"
  /\ fst r2 = Returns "final_1700000000.mp3"
  /\ trace (snd r2)
     = [ EvGtts "Drink water." "en";
         EvCreate "final_1700000000.mp3";
         EvWrite "final_1700000000.mp3" [x49; x44];
         EvWrite "final_1700000000.mp3" [x33];
         EvPlay "final_1700000000.mp3";
         EvGtts "Rest well." "hi";
         EvCreate "final_1700000000.mp3";
         EvWrite "final_1700000000.mp3" [x49; x44];
         EvWrite "final_1700000000.mp3" [x33];
         EvPlay "final_1700000000.mp3" ].
Proof. repeat split. Qed.

(** ** Claims about the conversation memory *)





(** C10, as stated, fails: with the free text [None] and an audio path
    given, the first condition stops at [audio_filepath is None] and never
    reaches [strip]; here the request goes on to the credential check and
    returns a triple. *)
Lemma None_text_with_audio_counterexample :
  fst (process_inputs keyless_world (Some "voice.mp3") None None "en" initial_state)
  = Returns ("Error: Missing GROQ API Key", "No doctor response", None)
  /\ forall msg,
       fst (process_inputs keyless_world (Some "voice.mp3") None None "en"
              initial_state)
       <> Raises (AttributeError msg).
Proof. split; [reflexivity | discriminate]. Qed.

Lemma past_validation_no_attribute_error w a i t lang s msg :
  no_input_given a i t s = (Returns false, s) ->
  fst (process_inputs w a i t lang s) <> Raises (AttributeError msg).
Proof.
  intros V. destruct (audio_given w a) eqn:A.
  - destruct (PyStr.truthy_opt (environ w "GROQ_API_KEY")) eqn:K.
    + rewrite process_inputs_with_audio by assumption. cbn [fst].
      intros [= E]. now apply compose_failure_not_attribute_error in E.
    + rewrite process_inputs_missing_key by assumption. discriminate.
  - rewrite process_inputs_without_audio by assumption. cbn [fst].
    intros [= E]. now apply compose_failure_not_attribute_error in E.
Qed.

(** C10 (amended). For every request whose free text is [None],
    [process_inputs] raises [AttributeError] exactly when the audio path
    and the image path are both [None]; when either path is given the
    condition is decided before the free text is looked at, and validation
    does not raise. *)
Theorem None_text_raises_iff_no_paths w a i lang s :
  (exists msg, fst (process_inputs w a i None lang s) = Raises (AttributeError msg))
  <-> (a = None /\ i = None).
Proof.
  split.
  - intros [msg H].
    destruct a as [a|]; [|destruct i as [i|]; [|now split]]; exfalso;
      revert H; apply past_validation_no_attribute_error; reflexivity.
  - intros [-> ->]. rewrite process_inputs_text_None. eexists. reflexivity.
Qed.

Lemma None_text_raises_iff_no_paths_witness :
  exists msg,
    fst (process_inputs healthy_world None None None "en" initial_state)
    = Raises (AttributeError msg).
Proof.
  apply (proj2 (None_text_raises_iff_no_paths healthy_world None None "en"
                  initial_state)).
  split; reflexivity.
Defined.

(** * Further properties of the code *)

(** ** Knowledge lookup *)

(** Either some key of a table occurs in the lower-cased text or none
    does. *)
Lemma some_key_or_none (items : list (string * string)) text :
  (exists k, In k (map fst items) /\ is_substring k (PyStr.lower text))
  \/ (forall k, In k (map fst items) -> ~ is_substring k (PyStr.lower text)).
Proof.
  induction items as [|[k0 q0] items [[k [Hin Hk]]|N]].
  - right. intros k [].
  - left. exists k. split; [now right | assumption].
  - destruct (PyStr.contains k0 (PyStr.lower text)) eqn:C.
    + left. exists k0. split; [now left | now apply contains_iff_substring].
    + right. intros k [<-|Hin]; [now apply not_contains_iff | now apply N].
Qed.

(** The entry a scan stops at depends on the keys of the table only. *)
Lemma first_match_same_keys items1 items2 text k q :
  map fst items1 = map fst items2 ->
  first_match items1 text k q ->
  exists q', first_match items2 text k q'.
Proof.
  intros K [before [after [-> [S N]]]].
  rewrite map_app in K. symmetry in K.
  apply map_eq_app in K as [before' [rest' [-> [Kb Kr]]]].
  cbn [map] in Kr. apply map_eq_cons in Kr as [[k' q'] [after' [-> [Kk Ka]]]].
  cbn [fst] in Kk. subst k'. exists q', before', after'.
  split; [reflexivity|]. split; [assumption|].
  intros k1 q1 Hin.
  assert (Hk : In k1 (map fst before)).
  { rewrite <- Kb. change k1 with (fst (k1, q1)). now apply in_map. }
  apply in_map_iff in Hk as [[k2 q2] [E Hin2]]. cbn [fst] in E. subst k2.
  now apply (N k1 q2).
Qed.

(** X1. For every text whose lower-casing contains a key of the fact
    table, [fetch_medical_knowledge] returns "Medical Information: "
    followed by the fact of the first key, in table order, that occurs in
    it. *)
Theorem fetch_medical_knowledge_first_match (t : string) :
  (exists k, In k (map fst medical_knowledge)
             /\ is_substring k (PyStr.lower t)) ->
  exists k info,
    first_match medical_knowledge t k info
    /\ fetch_medical_knowledge t = ("Medical Information: " ++ info)%string.
Proof.
  intros H. destruct (first_match_exists _ _ H) as [k [info F]].
  exists k, info. split; [assumption|].
  now apply (knowledge_loop_first_match _ _ k).
Qed.

Lemma fetch_medical_knowledge_first_match_witness :
  exists k info,
    first_match medical_knowledge "Chest pain and a COUGH since Monday" k info
    /\ fetch_medical_knowledge "Chest pain and a COUGH since Monday"
       = ("Medical Information: " ++ info)%string.
Proof.
  apply (fetch_medical_knowledge_first_match "Chest pain and a COUGH since Monday").
  exists "chest pain". split.
  - simpl. tauto.
  - apply contains_iff_substring. reflexivity.
Defined.

(** X2. The two lookups always speak of the same keyword: when
    [symptom_checker] stops at the key [k], [fetch_medical_knowledge]
    returns the fact stored under that same [k]; and [symptom_checker]
    gives its generic question exactly when [fetch_medical_knowledge] gives
    its generic advice. *)
Theorem lookups_agree_on_keyword (t : string) :
  (forall k q,
      first_match symptom_mapping t k q ->
      exists info,
        first_match medical_knowledge t k info
        /\ symptom_checker t = ("I see you mentioned " ++ k ++ ". " ++ q)%string
        /\ fetch_medical_knowledge t = ("Medical Information: " ++ info)%string)
  /\ (symptom_checker t = "Can you describe your symptoms in more detail?"
      <-> fetch_medical_knowledge t
          = "I recommend consulting a healthcare professional for more detailed information.").
Proof.
  split.
  - intros k q F.
    destruct (first_match_same_keys symptom_mapping medical_knowledge t k q
                eq_refl F) as [info F'].
    exists info. split; [assumption|]. split.
    + now apply symptom_loop_first_match.
    + now apply (knowledge_loop_first_match _ _ k).
  - destruct (some_key_or_none symptom_mapping t) as [H|N].
    + destruct (first_match_exists _ _ H) as [k [q F]].
      destruct (first_match_same_keys symptom_mapping medical_knowledge t k q
                  eq_refl F) as [info F'].
      unfold symptom_checker, fetch_medical_knowledge.
      rewrite (symptom_loop_first_match _ _ _ _ F).
      rewrite (knowledge_loop_first_match _ _ _ _ F').
      split; discriminate.
    + unfold symptom_checker, fetch_medical_knowledge.
      rewrite (symptom_loop_no_match _ _ N).
      rewrite (knowledge_loop_no_match medical_knowledge t N).
      split; reflexivity.
Qed.

Lemma lookups_agree_on_keyword_witness :
  exists info,
    first_match medical_knowledge "I have a headache and fever." "headache" info
    /\ symptom_checker "I have a headache and fever."
       = ("I see you mentioned " ++ "headache" ++ ". "
          ++ "Do you have any other symptoms like fever or nausea?")%string
    /\ fetch_medical_knowledge "I have a headache and fever."
       = ("Medical Information: " ++ info)%string.
Proof.
  apply (proj1 (lookups_agree_on_keyword "I have a headache and fever.")).
  exists [], (tl symptom_mapping). split; [reflexivity|]. split.
  - apply contains_iff_substring. reflexivity.
  - intros k' q' [].
Defined.

(** ** The vision-language adapter *)

Lemma lstrip_no_leading_space s : starts_with_space (PyStr.lstrip s) = false.
Proof.
  induction s as [|c s IH]; simpl; [reflexivity|].
  destruct (PyStr.is_space c) eqn:E; [assumption | simpl; assumption].
Qed.

Lemma rstrip_no_trailing_space s : ends_with_space (PyStr.rstrip s) = false.
Proof.
  induction s as [|c s IH]; simpl; [reflexivity|].
  destruct (PyStr.rstrip s) as [|d r] eqn:R.
  - destruct (PyStr.is_space c) eqn:E; simpl; [reflexivity | assumption].
  - exact IH.
Qed.

Lemma rstrip_keeps_start s :
  starts_with_space s = false -> starts_with_space (PyStr.rstrip s) = false.
Proof.
  destruct s as [|c s]; simpl; [reflexivity|]. intros E.
  destruct (PyStr.rstrip s); [rewrite E|]; simpl; assumption.
Qed.

Lemma lstrip_suffix s : exists before, s = (before ++ PyStr.lstrip s)%string.
Proof.
  induction s as [|c s [b IH]]; simpl.
  - now exists "".
  - destruct (PyStr.is_space c).
    + exists (String c b). simpl. now rewrite <- IH.
    + now exists "".
Qed.

Lemma rstrip_prefix s : exists after, s = (PyStr.rstrip s ++ after)%string.
Proof.
  induction s as [|c s [a IH]]; simpl.
  - now exists "".
  - destruct (PyStr.rstrip s) as [|d r] eqn:R.
    + destruct (PyStr.is_space c).
      * exists (String c s). reflexivity.
      * exists s. reflexivity.
    + exists a. simpl. simpl in IH. now rewrite <- IH.
Qed.

Lemma strip_is_substring s : is_substring (PyStr.strip s) s.
Proof.
  unfold PyStr.strip.
  destruct (lstrip_suffix s) as [b Hb].
  destruct (rstrip_prefix (PyStr.lstrip s)) as [a Ha].
  exists b, a. rewrite <- Ha. exact Hb.
Qed.

Lemma analyze_image_with_query_outcome w query encoded_image model s :
  analyze_image_with_query w query encoded_image model s
  = (Returns (analysis_result w query encoded_image model),
     with_events s [EvChat query (image_url encoded_image) model]).
Proof.
  unfold analyze_image_with_query, analysis_result, try_except, bind, emit,
    lift_remote, with_events.
  destruct (groq_chat w query (image_url encoded_image) model) as [[[|c l]|]|e];
    reflexivity.
Qed.

(** X3. [analyze_image_with_query] never raises and sends exactly one
    request, leaving the conversation memory alone.  When the client
    raises, its message comes back inside "Error during image analysis: ";
    when the service answers with no completion or with no choice, the
    fixed "Error: No valid response from the model." comes back; the
    choices after the first are ignored. *)
Theorem analyze_image_with_query_total w query encoded_image model s :
  (exists text,
      analyze_image_with_query w query encoded_image model s
      = (Returns text,
         with_events s [EvChat query (image_url encoded_image) model]))
  /\ (forall e,
         groq_chat w query (image_url encoded_image) model = Fails e ->
         fst (analyze_image_with_query w query encoded_image model s)
         = Returns ("Error during image analysis: " ++ str_of_exn e)%string)
  /\ (groq_chat w query (image_url encoded_image) model = Replies None
      \/ groq_chat w query (image_url encoded_image) model = Replies (Some []) ->
      fst (analyze_image_with_query w query encoded_image model s)
      = Returns "Error: No valid response from the model.")
  /\ (forall first_choice others,
         groq_chat w query (image_url encoded_image) model
         = Replies (Some (first_choice :: others)) ->
         fst (analyze_image_with_query w query encoded_image model s)
         = Returns (PyStr.strip first_choice)).
Proof.
  rewrite analyze_image_with_query_outcome. cbn [fst]. unfold analysis_result.
  split; [eauto|]. split; [now intros e ->|].
  split; [now intros [-> | ->] | now intros c l ->].
Qed.

Lemma analyze_image_with_query_total_witness :
  fst (analyze_image_with_query healthy_world "What is this?" (Some "iVBORw==")
         "llama-3.2-11b-vision-preview" initial_state)
  = Returns (PyStr.strip "With what I see, I think you have a mild rash. ").
Proof.
  apply (proj2 (proj2 (proj2
           (analyze_image_with_query_total healthy_world "What is this?"
              (Some "iVBORw==") "llama-3.2-11b-vision-preview" initial_state)))
           "With what I see, I think you have a mild rash. " []).
  reflexivity.
Defined.

(** X4. When the service answers with a choice, the text that
    [analyze_image_with_query] returns is a piece of that choice that
    neither begins nor ends with white space. *)
Theorem analysis_reply_is_trimmed
    w query encoded_image model s first_choice others :
  groq_chat w query (image_url encoded_image) model
  = Replies (Some (first_choice :: others)) ->
  exists text,
    fst (analyze_image_with_query w query encoded_image model s) = Returns text
    /\ is_substring text first_choice
    /\ starts_with_space text = false
    /\ ends_with_space text = false.
Proof.
  intros R. rewrite analyze_image_with_query_outcome. cbn [fst].
  unfold analysis_result. rewrite R. eexists. split; [reflexivity|].
  split; [apply strip_is_substring|]. unfold PyStr.strip. split.
  - apply rstrip_keeps_start, lstrip_no_leading_space.
  - apply rstrip_no_trailing_space.
Qed.

Lemma analysis_reply_is_trimmed_witness :
  exists text,
    fst (analyze_image_with_query healthy_world "What is this?" (Some "iVBORw==")
           "llama-3.2-11b-vision-preview" initial_state) = Returns text
    /\ is_substring text "With what I see, I think you have a mild rash. "
    /\ starts_with_space text = false
    /\ ends_with_space text = false.
Proof.
  apply (analysis_reply_is_trimmed healthy_world "What is this?" (Some "iVBORw==")
           "llama-3.2-11b-vision-preview" initial_state
           "With what I see, I think you have a mild rash. " []).
  reflexivity.
Defined.

(** ** Emotion detection *)

Lemma detect_emotion_outcome w audio_filepath s :
  detect_emotion w audio_filepath s
  = (Returns (emotion_result w audio_filepath),
     with_events s (emotion_events w audio_filepath)).
Proof.
  unfold detect_emotion, emotion_result, emotion_events, environ_get,
    read_binary, with_events.
  unfold try_except, bind, emit, lift_remote; simpl.
  destruct (PyStr.truthy_opt (environ w "EMOTION_API_KEY")); simpl;
    [|reflexivity].
  destruct (fs w audio_filepath) as [[audio_file| |]|]; simpl;
    try reflexivity.
  destruct (emotion_post w audio_file) as [[status [e|]]|e]; simpl;
    try destruct (status =? 200)%Z; simpl; rewrite <- ?app_assoc; reflexivity.
Qed.

(** X5. [detect_emotion] never raises.  Without EMOTION_API_KEY it
    answers "neutral" after the environment lookup alone: no file is read
    and no request is sent.  Any answer other than "neutral" is the label
    of a reply with status 200 to a request made with the key set and the
    audio file in place. *)
Theorem detect_emotion_total w audio_filepath s :
  (exists emotion,
      fst (detect_emotion w audio_filepath s) = Returns emotion)
  /\ (PyStr.truthy_opt (environ w "EMOTION_API_KEY") = false ->
      detect_emotion w audio_filepath s
      = (Returns "neutral", with_events s [EvEnvGet "EMOTION_API_KEY"]))
  /\ (forall emotion,
         fst (detect_emotion w audio_filepath s) = Returns emotion ->
         emotion <> "neutral" ->
         PyStr.truthy_opt (environ w "EMOTION_API_KEY") = true
         /\ exists audio_file,
              fs w audio_filepath = Some (Readable audio_file)
              /\ emotion_post w audio_file = Replies (200%Z, Some emotion)).
Proof.
  rewrite detect_emotion_outcome. cbn [fst].
  unfold emotion_result, emotion_events.
  split; [eauto|]. split; [now intros ->|].
  intros emotion E N.
  destruct (PyStr.truthy_opt (environ w "EMOTION_API_KEY")); [|congruence].
  split; [reflexivity|].
  destruct (fs w audio_filepath) as [[audio_file| |]|]; try congruence.
  exists audio_file. split; [reflexivity|].
  destruct (emotion_post w audio_file) as [[status [e|]]|e]; try congruence.
  destruct (Z.eqb_spec status 200); congruence.
Qed.

Lemma detect_emotion_total_witness :
  detect_emotion keyless_world "voice.mp3" initial_state
  = (Returns "neutral", with_events initial_state [EvEnvGet "EMOTION_API_KEY"]).
Proof.
  apply (proj1 (proj2 (detect_emotion_total keyless_world "voice.mp3"
                         initial_state))).
  reflexivity.
Defined.

(** ** Speech synthesis *)

Lemma concat_truthy_chunks chunks : concat (truthy_chunks chunks) = concat chunks.
Proof.
  unfold truthy_chunks.
  induction chunks as [|[|b c] chunks IH]; simpl; congruence.
Qed.

Lemma written_chunks_all w path chunks :
  first_write_failure w path chunks = None ->
  written_chunks w path chunks = chunks.
Proof.
  induction chunks as [|chunk rest IH]; cbn; [reflexivity|].
  destruct (disk_write w path chunk); [discriminate|].
  intros H. now rewrite IH.
Qed.

(** When nothing stops the saving, the file is created and every chunk
    reaches it. *)
Lemma saving_events_complete w path chunks broken :
  saving_failure w path chunks broken = None ->
  saving_events w path chunks = EvCreate path :: map (EvWrite path) chunks.
Proof.
  unfold saving_failure, saving_events.
  destruct (open_for_writing w path); [discriminate|].
  destruct (first_write_failure w path chunks) eqn:F; [discriminate|].
  intros _. now rewrite written_chunks_all.
Qed.

Lemma saving_events_no_play w path chunks :
  forallb (fun e => negb (is_play_event e)) (saving_events w path chunks) = true.
Proof.
  unfold saving_events. destruct (open_for_writing w path); [reflexivity|].
  cbn. induction (written_chunks w path chunks); cbn; auto.
Qed.

Lemma file_written_chunks path chunks rest so_far :
  file_written path (map (EvWrite path) chunks ++ rest) (Some so_far)
  = file_written path rest (Some (so_far ++ concat chunks)).
Proof.
  revert so_far; induction chunks as [|chunk chunks IH]; intros so_far; cbn.
  - now rewrite app_nil_r.
  - rewrite String.eqb_refl, IH. now rewrite <- app_assoc.
Qed.

(** After a run that creates the file and writes the chunks to it, the
    file holds their concatenation. *)
Lemma file_written_saved path first chunks last :
  (forall p, first <> EvCreate p) -> (forall p c, first <> EvWrite p c) ->
  file_written path
    (first :: EvCreate path :: map (EvWrite path) chunks ++ last) None
  = file_written path last (Some (concat chunks)).
Proof.
  intros C W. destruct first; try (now elim (C path0)); try (now elim (W path0 chunk));
    cbn; rewrite String.eqb_refl; apply file_written_chunks.
Qed.

(** X6. [text_to_speech_with_elevenlabs] never raises.  When the client
    hands back a stream, the file opens, every write succeeds and the
    stream ends by itself, the file at the time-stamped path holds the
    whole stream (skipping empty chunks loses nothing), it is played, and
    the path is returned.  In every other case [None] is returned and
    nothing is played; in particular a stream that breaks part-way gives
    [None] and leaves in the file the chunks that came before. *)
Theorem text_to_speech_with_elevenlabs_total w input_text output_filepath s :
  let path := timestamped w output_filepath in
  (exists result,
      fst (text_to_speech_with_elevenlabs w input_text output_filepath s)
      = Returns result)
  /\ (elevenlabs_completes w input_text output_filepath = false ->
      exists new,
        text_to_speech_with_elevenlabs w input_text output_filepath s
        = (Returns None, with_events s new)
        /\ forallb (fun e => negb (is_play_event e)) new = true)
  /\ (forall stream,
         elevenlabs_generate w input_text "Aria" "eleven_turbo_v2"
         = Replies (Some stream) ->
         elevenlabs_completes w input_text output_filepath = true ->
         let new := EvElevenLabs input_text
                    :: EvCreate path
                    :: map (EvWrite path) (truthy_chunks (yielded stream))
                    ++ [EvPlay path] in
         text_to_speech_with_elevenlabs w input_text output_filepath s
         = (Returns (Some path), with_events s new)
         /\ file_written path new None = Some (concat (yielded stream)))
  /\ (forall stream e,
         elevenlabs_generate w input_text "Aria" "eleven_turbo_v2"
         = Replies (Some stream) ->
         open_for_writing w path = None ->
         first_write_failure w path (truthy_chunks (yielded stream)) = None ->
         interrupted stream = Some e ->
         let new := EvElevenLabs input_text
                    :: EvCreate path
                    :: map (EvWrite path) (truthy_chunks (yielded stream)) in
         text_to_speech_with_elevenlabs w input_text output_filepath s
         = (Returns None, with_events s new)
         /\ file_written path new None = Some (concat (yielded stream))).
Proof.
  intros path. rewrite text_to_speech_with_elevenlabs_outcome. cbv zeta.
  fold path. unfold elevenlabs_completes. fold path.
  destruct (elevenlabs_generate w input_text "Aria" "eleven_turbo_v2")
    as [[stream|]|e0].
  - destruct (saving_failure w path (truthy_chunks (yielded stream))
                (interrupted stream)) as [e1|] eqn:F.
    + split; [eexists; reflexivity|]. split.
      * intros _. eexists. split; [reflexivity|]. cbn.
        apply saving_events_no_play.
      * split; [intros st _ [=]|].
        intros st e [= <-] O Wr I.
        unfold saving_events. rewrite O, (written_chunks_all _ _ _ Wr).
        split; [reflexivity|].
        rewrite <- (app_nil_r (map _ _)).
        rewrite file_written_saved by discriminate.
        cbn. now rewrite concat_truthy_chunks.
    + split; [eexists; reflexivity|]. split; [intros [=]|]. split.
      * intros st [= <-] _.
        rewrite (saving_events_complete _ _ _ _ F).
        split; [reflexivity|].
        rewrite file_written_saved by discriminate.
        cbn. now rewrite concat_truthy_chunks.
      * intros st e [= <-] O Wr I. unfold saving_failure in F.
        rewrite O, Wr, I in F. discriminate.
  - split; [eexists; reflexivity|]. split.
    + intros _. eexists. split; reflexivity.
    + split; [intros st [=] | intros st e [=]].
  - split; [eexists; reflexivity|]. split.
    + intros _. eexists. split; reflexivity.
    + split; [intros st [=] | intros st e [=]].
Qed.

Lemma text_to_speech_with_elevenlabs_total_witness :
  (text_to_speech_with_elevenlabs healthy_world "Rest well." "final"
     initial_state
   = (Returns (Some "final_1700000000.mp3"),
      with_events initial_state
        [ EvElevenLabs "Rest well.";
          EvCreate "final_1700000000.mp3";
          EvWrite "final_1700000000.mp3" [x49; x44];
          EvWrite "final_1700000000.mp3" [x33];
          EvPlay "final_1700000000.mp3" ])
   /\ file_written "final_1700000000.mp3"
        [ EvElevenLabs "Rest well.";
          EvCreate "final_1700000000.mp3";
          EvWrite "final_1700000000.mp3" [x49; x44];
          EvWrite "final_1700000000.mp3" [x33];
          EvPlay "final_1700000000.mp3" ] None
      = Some [x49; x44; x33])
  /\ (text_to_speech_with_elevenlabs stuttering_world "Rest well." "final"
        initial_state
      = (Returns None,
         with_events initial_state
           [ EvElevenLabs "Rest well.";
             EvCreate "final_1700000000.mp3";
             EvWrite "final_1700000000.mp3" [x49; x44] ])
      /\ file_written "final_1700000000.mp3"
           [ EvElevenLabs "Rest well.";
             EvCreate "final_1700000000.mp3";
             EvWrite "final_1700000000.mp3" [x49; x44] ] None
         = Some [x49; x44]).
Proof.
  split.
  - apply (proj1 (proj2 (proj2 (text_to_speech_with_elevenlabs_total
                                  healthy_world "Rest well." "final"
                                  initial_state)))
             {| yielded := [[x49; x44]; []; [x33]]; interrupted := None |});
      reflexivity.
  - apply (proj2 (proj2 (proj2 (text_to_speech_with_elevenlabs_total
                                  stuttering_world "Rest well." "final"
                                  initial_state)))
             {| yielded := [[x49; x44]];
                interrupted := Some (RemoteError "connection reset") |}
             (RemoteError "connection reset"));
      reflexivity.
Defined.




Lemma str_of_int_injective m n : str_of_int m = str_of_int n -> m = n.
Proof.
  unfold str_of_int. intros E.
  assert (P : forall z,
             NilZero.int_of_string (NilZero.string_of_int (Z.to_int z))
             = Some (Z.to_int z)).
  { intros z. apply NilZero.isi; destruct z; simpl; try discriminate;
      intros [= H]; now apply (DecimalPos.Unsigned.to_uint_nonnil p). }
  apply DecimalZ.to_int_inj.
  pose proof (P m) as Pm. rewrite E, P in Pm. congruence.
Qed.

Lemma append_cancel_l p a b : (p ++ a)%string = (p ++ b)%string -> a = b.
Proof. induction p; simpl; [auto | intros [= H]; auto]. Qed.

Lemma length_append a b :
  String.length (a ++ b) = (String.length a + String.length b)%nat.
Proof. induction a; simpl; congruence. Qed.

Lemma append_cancel_r a b suffix :
  (a ++ suffix)%string = (b ++ suffix)%string -> a = b.
Proof.
  revert b; induction a as [|c a IH]; intros [|d b] E; simpl in E.
  - reflexivity.
  - apply (f_equal String.length) in E. simpl in E.
    rewrite length_append in E. lia.
  - apply (f_equal String.length) in E. simpl in E.
    rewrite length_append in E. lia.
  - injection E as -> E. f_equal. now apply IH.
Qed.

(** X8. For one [output_filepath], the time-stamped names of two
    synthesis calls are the same exactly when the two clock readings fall
    in the same whole second: calls in different seconds never share a
    file. *)
Theorem timestamped_paths_equal_iff_same_second w1 w2 output_filepath :
  timestamped w1 output_filepath = timestamped w2 output_filepath
  <-> int_of_float (time_time w1) = int_of_float (time_time w2).
Proof.
  unfold timestamped. split.
  - intros E. apply append_cancel_l in E. apply (append_cancel_l "_") in E.
    apply append_cancel_r in E. now apply str_of_int_injective.
  - now intros ->.
Qed.

Lemma timestamped_paths_equal_iff_same_second_witness :
  timestamped healthy_world "final" = timestamped healthy_world_later "final".
Proof.
  apply (proj2 (timestamped_paths_equal_iff_same_second healthy_world
                  healthy_world_later "final")).
  reflexivity.
Defined.

(** ** The voice-only orchestrator of voice_of_the_doctor.py *)

Lemma image_unreadable_false_cases w i :
  image_unreadable w i = false ->
  PyStr.truthy_opt i = false
  \/ fs w (str_value i) = None
  \/ exists data, fs w (str_value i) = Some (Readable data).
Proof.
  unfold image_unreadable, open_failure.
  destruct (PyStr.truthy_opt i); [|now left].
  destruct (fs w (str_value i)) as [[data| |]|]; cbn; try discriminate; eauto.
Qed.

Lemma voice_only_until_speech w p i lang s audio :
  fs w p = Some audio ->
  PyStr.truthy_opt (environ w "GROQ_API_KEY") = true ->
  image_unreadable w i = false ->
  VoiceOfTheDoctor.process_inputs w (Some p) i lang s
  = VoiceOfTheDoctor.speak_response w lang
      (transcription_result w "whisper-large-v3" p "auto")
      (voice_only_response w p i)
      (with_events s (voice_only_events w p i)).
Proof.
  intros F K R. unfold VoiceOfTheDoctor.process_inputs, path_exists.
  cbn [is_None str_value orb]. rewrite F. cbn [negb].
  change (call def_transcribe_with_groq 0
            ["GROQ_API_KEY"; "audio_filepath"; "stt_model"] ?b) with b.
  change (call def_encode_image 1 [] ?b) with b.
  change (call def_analyze_image_with_query 0 ["query"; "encoded_image"; "model"] ?b)
    with b.
  unfold environ_get.
  unfold bind at 1. unfold bind at 1. unfold emit at 1. unfold ret at 1.
  rewrite K. cbn [negb].
  unfold bind at 1. rewrite transcribe_with_groq_returns.
  unfold voice_only_response, voice_only_events, voice_only_query.
  set (stt := transcription_result w "whisper-large-v3" p "auto").
  unfold image_unreadable, open_failure in R.
  destruct (PyStr.truthy_opt i) eqn:Ti;
    destruct (fs w (str_value i)) as [[img| |]|] eqn:Fi;
    cbn [andb negb] in *; try discriminate R.
  - unfold bind at 1. unfold bind at 1.
    rewrite (encode_image_existing _ _ img) by assumption.
    rewrite analyze_image_with_query_outcome.
    f_equal. unfold with_events; simpl. rewrite <- !app_assoc. reflexivity.
  - unfold bind at 1. unfold ret at 1. f_equal.
    unfold with_events; simpl. rewrite <- ?app_assoc, ?app_nil_r. reflexivity.
  - unfold bind at 1. unfold ret at 1. f_equal.
    unfold with_events; simpl. rewrite <- ?app_assoc, ?app_nil_r. reflexivity.
  - unfold bind at 1. unfold ret at 1. f_equal.
    unfold with_events; simpl. rewrite <- ?app_assoc, ?app_nil_r. reflexivity.
  - unfold bind at 1. unfold ret at 1. f_equal.
    unfold with_events; simpl. rewrite <- ?app_assoc, ?app_nil_r. reflexivity.
  - unfold bind at 1. unfold ret at 1. f_equal.
    unfold with_events; simpl. rewrite <- ?app_assoc, ?app_nil_r. reflexivity.
Qed.

(** With an image that is there and cannot be read, the voice-only
    [process_inputs] raises what [open] raises, after the transcription. *)
Lemma voice_only_unreadable_image w p i lang s audio e :
  fs w p = Some audio ->
  PyStr.truthy_opt (environ w "GROQ_API_KEY") = true ->
  PyStr.truthy_opt i = true ->
  open_failure w (str_value i) = Some e ->
  fst (VoiceOfTheDoctor.process_inputs w (Some p) i lang s) = Raises e.
Proof.
  intros F K T O. unfold VoiceOfTheDoctor.process_inputs, path_exists.
  cbn [is_None str_value orb]. rewrite F. cbn [negb].
  change (call def_transcribe_with_groq 0
            ["GROQ_API_KEY"; "audio_filepath"; "stt_model"] ?b) with b.
  change (call def_encode_image 1 [] ?b) with b.
  unfold environ_get.
  unfold bind at 1. unfold bind at 1. unfold emit at 1. unfold ret at 1.
  rewrite K. cbn [negb].
  unfold bind at 1. rewrite transcribe_with_groq_returns.
  rewrite T.
  assert (E : fs w (str_value i) <> None).
  { unfold open_failure in O. destruct (fs w (str_value i)); congruence. }
  destruct (fs w (str_value i)) eqn:Fi; [|congruence]. cbn [andb].
  unfold bind. rewrite (encode_image_unreadable _ _ e) by assumption.
  reflexivity.
Qed.

(** X9. The voice-only [process_inputs] does nothing without a recording:
    when the audio path is [None] or names no existing file it returns
    ("No audio file provided", "No doctor response", None) and leaves the
    state as it was, whatever image and language come with it. *)
Theorem voice_only_requires_audio w a i lang s :
  (forall p, a = Some p -> fs w p = None) ->
  VoiceOfTheDoctor.process_inputs w a i lang s
  = (Returns ("No audio file provided", "No doctor response", None), s).
Proof.
  intros Missing. unfold VoiceOfTheDoctor.process_inputs, path_exists.
  destruct a as [p|]; [|reflexivity].
  cbn [is_None str_value orb]. now rewrite (Missing p eq_refl).
Qed.

Lemma voice_only_requires_audio_witness :
  VoiceOfTheDoctor.process_inputs healthy_world (Some "missing.mp3")
    (Some "rash.jpg") "Hindi" initial_state
  = (Returns ("No audio file provided", "No doctor response", None),
     initial_state).
Proof.
  apply (voice_only_requires_audio healthy_world (Some "missing.mp3")
           (Some "rash.jpg") "Hindi" initial_state).
  intros p [= <-]. reflexivity.
Defined.

(** X10. With a recording in place and GROQ_API_KEY missing or empty,
    the voice-only [process_inputs] returns
    ("Error: Missing GROQ API Key", "No doctor response", None) after the
    environment lookup alone: nothing is transcribed, analysed, translated
    or spoken. *)
Theorem voice_only_missing_key w p audio i lang s :
  fs w p = Some audio ->
  PyStr.truthy_opt (environ w "GROQ_API_KEY") = false ->
  VoiceOfTheDoctor.process_inputs w (Some p) i lang s
  = (Returns ("Error: Missing GROQ API Key", "No doctor response", None),
     with_events s [EvEnvGet "GROQ_API_KEY"]).
Proof.
  intros F K. unfold VoiceOfTheDoctor.process_inputs, path_exists.
  cbn [is_None str_value orb]. rewrite F. cbn [negb].
  unfold bind, environ_get, emit, ret; simpl. now rewrite K.
Qed.

Lemma voice_only_missing_key_witness :
  VoiceOfTheDoctor.process_inputs keyless_world (Some "voice.mp3")
    (Some "rash.jpg") "English" initial_state
  = (Returns ("Error: Missing GROQ API Key", "No doctor response", None),
     with_events initial_state [EvEnvGet "GROQ_API_KEY"]).
Proof.
  apply (voice_only_missing_key keyless_world "voice.mp3"
           (Readable [x49; x44; x33]) (Some "rash.jpg") "English"
           initial_state); reflexivity.
Defined.

(** X11. For the language "English", with a recording in place and the
    key set, the voice-only [process_inputs] returns a triple unless the
    image path names something that is there and cannot be read: the
    transcript (or its error string), the doctor's response (the fixed
    "No image provided for me to analyze." when no existing image comes
    with the request), and the path of the synthesized audio, which is
    [None] exactly when the synthesis has not run to its end (the client
    raises or hands back nothing to iterate, the file does not open, a
    write fails, or the stream breaks) and the time-stamped path
    otherwise.  The conversation memory is not touched.  An image that is
    there and cannot be read makes the call raise what [open] raises. *)
Theorem voice_only_english_returns w p audio i s :
  fs w p = Some audio ->
  PyStr.truthy_opt (environ w "GROQ_API_KEY") = true ->
  (image_unreadable w i = false ->
   exists audio_file s',
     VoiceOfTheDoctor.process_inputs w (Some p) i "English" s
     = (Returns (transcription_result w "whisper-large-v3" p "auto",
                 voice_only_response w p i, audio_file), s')
     /\ conversation_memory s' = conversation_memory s
     /\ (audio_file = None
         <-> elevenlabs_completes w (voice_only_response w p i) "final" = false)
     /\ (elevenlabs_completes w (voice_only_response w p i) "final" = true ->
         audio_file = Some (timestamped w "final"))
     /\ ((PyStr.truthy_opt i = false \/ fs w (str_value i) = None) ->
         voice_only_response w p i = "No image provided for me to analyze."))
  /\ (forall e,
         PyStr.truthy_opt i = true ->
         open_failure w (str_value i) = Some e ->
         fst (VoiceOfTheDoctor.process_inputs w (Some p) i "English" s)
         = Raises e).
Proof.
  intros F K. split.
  - intros R.
    rewrite (voice_only_until_speech _ _ _ _ _ audio) by assumption.
    unfold VoiceOfTheDoctor.speak_response.
    cbn [String.eqb Ascii.eqb Bool.eqb negb].
    change (call def_text_to_speech_with_elevenlabs 0
              ["input_text"; "output_filepath"] ?b) with b.
    set (resp := voice_only_response w p i).
    assert (Himg : (PyStr.truthy_opt i = false \/ fs w (str_value i) = None) ->
                   resp = "No image provided for me to analyze.").
    { subst resp. unfold voice_only_response. intros [T|N].
      - rewrite T. now destruct (fs w (str_value i)) as [[d| |]|].
      - now rewrite N. }
    unfold bind. rewrite text_to_speech_with_elevenlabs_outcome. cbv zeta.
    unfold elevenlabs_completes.
    destruct (elevenlabs_generate w resp "Aria" "eleven_turbo_v2")
      as [[stream|]|e] eqn:G;
      [destruct (saving_failure w (timestamped w "final")
                   (truthy_chunks (yielded stream)) (interrupted stream))|..];
      unfold ret;
      eexists; eexists; (split; [reflexivity|]); (split; [reflexivity|]);
      (split; [|split; [|exact Himg]]);
      try (split; [reflexivity + discriminate | reflexivity + discriminate]);
      try discriminate; try reflexivity.
  - intros e T O. now apply (voice_only_unreadable_image _ _ _ _ _ audio).
Qed.

Lemma voice_only_english_returns_witness :
  (exists audio_file s',
      VoiceOfTheDoctor.process_inputs healthy_world (Some "voice.mp3") None
        "English" initial_state
      = (Returns (transcription_result healthy_world "whisper-large-v3"
                    "voice.mp3" "auto",
                  voice_only_response healthy_world "voice.mp3" None,
                  audio_file), s')
      /\ conversation_memory s' = conversation_memory initial_state
      /\ (audio_file = None
          <-> elevenlabs_completes healthy_world
                (voice_only_response healthy_world "voice.mp3" None) "final"
              = false)
      /\ (elevenlabs_completes healthy_world
            (voice_only_response healthy_world "voice.mp3" None) "final" = true ->
          audio_file = Some (timestamped healthy_world "final"))
      /\ ((PyStr.truthy_opt None = false
           \/ fs healthy_world (str_value None) = None) ->
          voice_only_response healthy_world "voice.mp3" None
          = "No image provided for me to analyze."))
  /\ fst (VoiceOfTheDoctor.process_inputs healthy_world (Some "voice.mp3")
            (Some "scans") "English" initial_state)
     = Raises (IsADirectoryError "[Errno 21] Is a directory: 'scans'").
Proof.
  split.
  - apply (proj1 (voice_only_english_returns healthy_world "voice.mp3"
                    (Readable [x49; x44; x33]) None initial_state
                    eq_refl eq_refl)).
    reflexivity.
  - apply (proj2 (voice_only_english_returns healthy_world "voice.mp3"
                    (Readable [x49; x44; x33]) (Some "scans") initial_state
                    eq_refl eq_refl)); reflexivity.
Defined.

(** X12. For any language other than "English", with a recording in place
    and the key set, the voice-only [process_inputs] has no handler around
    translation and synthesis: it raises what the translation client
    raises, it raises what gTTS raises when it is built, it raises what
    stops the saving of the audio (the file does not open, a write fails,
    the download breaks), and only when all of them go through does it
    return the transcript, the translated response and the time-stamped
    path.  The translator is asked for the lower-cased language name, gTTS
    for the language code of the table.  An image that is there and cannot
    be read makes the call raise what [open] raises before any of that. *)
Theorem voice_only_other_language w p audio i lang s :
  lang <> "English" ->
  fs w p = Some audio ->
  PyStr.truthy_opt (environ w "GROQ_API_KEY") = true ->
  let response := voice_only_response w p i in
  let lang_code := dict_get GTTS_SUPPORTED_LANGUAGES lang "en" in
  let path := timestamped w "final" in
  (image_unreadable w i = false ->
   (forall e,
       translator w response (PyStr.lower lang) = Fails e ->
       fst (VoiceOfTheDoctor.process_inputs w (Some p) i lang s) = Raises e)
   /\ (forall translated e,
          translator w response (PyStr.lower lang) = Replies translated ->
          gtts w translated lang_code = Fails e ->
          fst (VoiceOfTheDoctor.process_inputs w (Some p) i lang s) = Raises e)
   /\ (forall translated audioobj e,
          translator w response (PyStr.lower lang) = Replies translated ->
          gtts w translated lang_code = Replies audioobj ->
          saving_failure w path (yielded audioobj) (interrupted audioobj)
          = Some e ->
          fst (VoiceOfTheDoctor.process_inputs w (Some p) i lang s) = Raises e)
   /\ (forall translated audioobj,
          translator w response (PyStr.lower lang) = Replies translated ->
          gtts w translated lang_code = Replies audioobj ->
          saving_failure w path (yielded audioobj) (interrupted audioobj)
          = None ->
          fst (VoiceOfTheDoctor.process_inputs w (Some p) i lang s)
          = Returns (transcription_result w "whisper-large-v3" p "auto",
                     translated, Some path)))
  /\ (forall e,
         PyStr.truthy_opt i = true ->
         open_failure w (str_value i) = Some e ->
         fst (VoiceOfTheDoctor.process_inputs w (Some p) i lang s) = Raises e).
Proof.
  intros N F K response lang_code path. split.
  - intros R.
    rewrite (voice_only_until_speech _ _ _ _ _ audio) by assumption.
    fold response. unfold VoiceOfTheDoctor.speak_response.
    apply String.eqb_neq in N. rewrite N. cbn [negb].
    change (call def_text_to_speech_with_gtts 0
              ["input_text"; "output_filepath"; "lang"] ?b) with b.
    unfold VoiceOfTheDoctor.google_translate, bind, emit, lift_remote, ret.
    split; [|split; [|split]].
    + intros e ->. reflexivity.
    + intros translated e -> G.
      rewrite text_to_speech_with_gtts_outcome. cbv zeta.
      fold lang_code. now rewrite G.
    + intros translated audioobj e -> G S.
      rewrite text_to_speech_with_gtts_outcome. cbv zeta.
      fold lang_code path. rewrite G, S. reflexivity.
    + intros translated audioobj -> G S.
      rewrite text_to_speech_with_gtts_outcome. cbv zeta.
      fold lang_code path. rewrite G, S. reflexivity.
  - intros e T O. now apply (voice_only_unreadable_image _ _ _ _ _ audio).
Qed.

Lemma voice_only_other_language_witness :
  fst (VoiceOfTheDoctor.process_inputs healthy_world (Some "voice.mp3") None
         "Hindi" initial_state)
  = Returns (" I have a cough ", "No image provided for me to analyze.",
             Some "final_1700000000.mp3")
  /\ fst (VoiceOfTheDoctor.process_inputs stuttering_world (Some "voice.mp3")
            None "Hindi" initial_state)
     = Raises (RemoteError "429 (Too Many Requests)").
Proof.
  split.
  - apply (proj2 (proj2 (proj2 (proj1
             (voice_only_other_language healthy_world "voice.mp3"
                (Readable [x49; x44; x33]) None "Hindi" initial_state
                ltac:(discriminate) eq_refl eq_refl) eq_refl)))
             "No image provided for me to analyze."
             {| yielded := [[x49; x44]; [x33]]; interrupted := None |});
      reflexivity.
  - apply (proj1 (proj2 (proj2 (proj1
             (voice_only_other_language stuttering_world "voice.mp3"
                (Readable [x49; x44; x33]) None "Hindi" initial_state
                ltac:(discriminate) eq_refl eq_refl) eq_refl)))
             "No image provided for me to analyze."
             {| yielded := [[x49; x44]];
                interrupted := Some (RemoteError "429 (Too Many Requests)") |});
      reflexivity.
Defined.

(** ** More on gradio_app.py's [process_inputs] *)

Lemma no_input_given_cases a i t s :
  no_input_given a i t s = (Returns true, s)
  \/ no_input_given a i t s = (Returns false, s)
  \/ no_input_given a i t s
     = (Raises (AttributeError "'NoneType' object has no attribute 'strip'"), s).
Proof.
  destruct a, i, t as [x|]; cbn; auto.
  unfold ret. destruct (PyStr.strip x =? "")%string; auto.
Qed.

Lemma audio_events_no_output w p :
  forallb (fun e => negb (is_output_event e)) (audio_events w p) = true.
Proof.
  unfold audio_events, transcription_events, emotion_events.
  destruct (fs w p) as [[audio| |]|];
    destruct (PyStr.truthy_opt (environ w "EMOTION_API_KEY")); reflexivity.
Qed.

Lemma image_events_no_output w i :
  forallb (fun e => negb (is_output_event e)) (image_events w i) = true.
Proof.
  unfold image_events.
  destruct (fs w (str_value i)) as [[data| |]|]; try reflexivity.
  destruct (PyStr.truthy_opt i); reflexivity.
Qed.

Lemma lookup_turns_no_assistant u :
  forallb (fun t => negb (is_assistant_turn t)) (lookup_turns u) = true.
Proof. reflexivity. Qed.

Lemma request_turns_recorded w i u :
  exists kind,
    request_turns w i u = recorded (kind, u)
    /\ kind <> nothing
    /\ (kind = user_only -> image_unreadable w i = true).
Proof.
  unfold request_turns. destruct (image_unreadable w i).
  - exists user_only. repeat split; congruence.
  - exists with_lookups. repeat split; congruence.
Qed.

Lemma recorded_no_assistant entry :
  forallb (fun t => negb (is_assistant_turn t)) (recorded entry) = true.
Proof. destruct entry as [[| |] u]; reflexivity. Qed.

(** Every call ends in a state that extends the one it started from: by
    nothing, by the user turn with its two lookups, or (the image being
    unreadable) by the user turn alone, and by events that are neither
    translation nor synthesis. *)
Lemma process_inputs_final_state w a i t lang s :
  exists entry new,
    snd (process_inputs w a i t lang s) = advanced s (recorded entry) new
    /\ (fst entry = user_only -> image_unreadable w i = true)
    /\ forallb (fun e => negb (is_output_event e)) new = true.
Proof.
  destruct (no_input_given_cases a i t s) as [V|[V|V]].
  - exists (nothing, ""), []. unfold process_inputs, bind. rewrite V. cbn [snd].
    cbn [recorded]. rewrite advanced_nothing. repeat split. discriminate.
  - destruct (audio_given w a) eqn:A.
    + destruct (PyStr.truthy_opt (environ w "GROQ_API_KEY")) eqn:K.
      * rewrite process_inputs_with_audio by assumption. cbn [snd].
        match goal with
        | |- context [request_turns w i ?u] =>
            destruct (request_turns_recorded w i u) as [kind [E [_ U]]];
            rewrite E; exists (kind, u)
        end.
        eexists. split; [reflexivity|]. split; [exact U|].
        rewrite forallb_app, audio_events_no_output, image_events_no_output.
        reflexivity.
      * rewrite process_inputs_missing_key by assumption.
        exists (nothing, ""), [EvEnvGet "GROQ_API_KEY"]. cbn [snd recorded].
        unfold advanced, with_events. rewrite app_nil_r.
        repeat split. discriminate.
    + rewrite process_inputs_without_audio by assumption. cbn [snd].
      match goal with
      | |- context [request_turns w i ?u] =>
          destruct (request_turns_recorded w i u) as [kind [E [_ U]]];
          rewrite E; exists (kind, u)
      end.
      eexists. split; [reflexivity|]. split; [exact U|].
      apply image_events_no_output.
  - exists (nothing, ""), []. unfold process_inputs, bind. rewrite V. cbn [snd].
    cbn [recorded]. rewrite advanced_nothing. repeat split. discriminate.
Qed.

(** X13. Over any sequence of requests, served one after the other, the
    conversation memory only grows, and by one entry for each request:
    nothing (the request was turned away at validation or at the
    credential check), the user turn followed by the symptom lookup and
    the knowledge lookup of its text, or the user turn alone, which
    happens only when the image of that request is there and cannot be
    read.  What was there stays in place, and no assistant turn is ever
    recorded, so the doctor's answers are never part of the context. *)
Theorem served_memory_never_holds_the_answers requests s :
  exists entries : list (record_kind * string),
    conversation_memory (serve requests s)
    = conversation_memory s ++ flat_map recorded entries
    /\ Forall2
         (fun r entry =>
            fst entry = user_only ->
            image_unreadable (req_world r) (req_image r) = true)
         requests entries
    /\ forallb (fun t => negb (is_assistant_turn t)) (flat_map recorded entries)
       = true.
Proof.
  revert s. induction requests as [|r requests IH]; intros s.
  - exists []. cbn. rewrite app_nil_r. auto.
  - cbn [serve].
    destruct (process_inputs_final_state (req_world r) (req_audio r)
                (req_image r) (req_text r) (req_language r) s)
      as [entry [new [E [U _]]]].
    rewrite E.
    destruct (IH (advanced s (recorded entry) new)) as [entries [M [F A]]].
    exists (entry :: entries). rewrite M.
    cbn [advanced conversation_memory flat_map]. rewrite <- app_assoc.
    split; [reflexivity|]. split; [now constructor|].
    now rewrite forallb_app, recorded_no_assistant.
Qed.

(** X14. A call of [process_inputs] never translates, synthesizes, writes
    a file or plays audio, whatever the request and the world: the events
    it adds are environment lookups, file reads and requests to the
    transcription, emotion and vision services only. *)
Theorem process_inputs_never_speaks w a i t lang s :
  exists new,
    trace (snd (process_inputs w a i t lang s)) = trace s ++ new
    /\ forallb (fun e => negb (is_output_event e)) new = true.
Proof.
  destruct (process_inputs_final_state w a i t lang s)
    as [entry [new [E [_ Q]]]].
  exists new. now rewrite E.
Qed.

(** X15. The language preference has no effect on [process_inputs]: two
    calls that differ in it only end in the same outcome and the same
    state. *)
Theorem process_inputs_ignores_language w a i t lang1 lang2 s :
  process_inputs w a i t lang1 s = process_inputs w a i t lang2 s.
Proof.
  destruct (no_input_given_cases a i t s) as [V|[V|V]].
  - unfold process_inputs, bind. now rewrite V.
  - destruct (audio_given w a) eqn:A.
    + destruct (PyStr.truthy_opt (environ w "GROQ_API_KEY")) eqn:K.
      * now rewrite !process_inputs_with_audio by assumption.
      * now rewrite !process_inputs_missing_key by assumption.
    + now rewrite !process_inputs_without_audio by assumption.
  - unfold process_inputs, bind. now rewrite V.
Qed.

(** X16. With an existing recording and GROQ_API_KEY missing or empty,
    [process_inputs] returns
    ("Error: Missing GROQ API Key", "No doctor response", None) after the
    environment lookup alone, whatever text and image come with the
    request: the typed text is not used and nothing is appended to the
    conversation memory. *)
Theorem process_inputs_missing_key_triple w p audio i t lang s :
  p <> "" ->
  fs w p = Some audio ->
  PyStr.truthy_opt (environ w "GROQ_API_KEY") = false ->
  process_inputs w (Some p) i t lang s
  = (Returns ("Error: Missing GROQ API Key", "No doctor response", None),
     with_events s [EvEnvGet "GROQ_API_KEY"]).
Proof.
  intros N F K. apply process_inputs_missing_key.
  - apply no_input_given_false_iff. left. discriminate.
  - unfold audio_given, path_exists. cbn [str_value PyStr.truthy_opt].
    rewrite F. apply truthy_nonempty in N. now rewrite N.
  - assumption.
Qed.

Lemma process_inputs_missing_key_triple_witness :
  process_inputs keyless_world (Some "voice.mp3") (Some "rash.jpg")
    (Some "I have a fever") "en" initial_state
  = (Returns ("Error: Missing GROQ API Key", "No doctor response", None),
     with_events initial_state [EvEnvGet "GROQ_API_KEY"]).
Proof.
  apply (process_inputs_missing_key_triple keyless_world "voice.mp3"
           (Readable [x49; x44; x33]) (Some "rash.jpg") (Some "I have a fever") "en"
           initial_state);
    [discriminate | reflexivity | reflexivity].
Defined.

(** X17. A request whose image path is a non-empty string that names no
    existing file skips the image branch and then reads the variable
    [encoded_image], which was never assigned: unless the credential check
    stops it first, [process_inputs] raises [UnboundLocalError], after the
    user turn and the two lookups have been appended. *)
Theorem process_inputs_dangling_image_path w a image t lang s :
  image <> "" ->
  fs w image = None ->
  (audio_given w a = true -> PyStr.truthy_opt (environ w "GROQ_API_KEY") = true) ->
  exists u,
    fst (process_inputs w a (Some image) t lang s)
    = Raises (UnboundLocalError
                "cannot access local variable 'encoded_image' where it is not associated with a value")
    /\ conversation_memory (snd (process_inputs w a (Some image) t lang s))
       = conversation_memory s ++ lookup_turns u.
Proof.
  intros N F K.
  assert (V : no_input_given a (Some image) t s = (Returns false, s)).
  { apply no_input_given_false_iff. right. left. discriminate. }
  assert (C : compose_failure w (Some image)
              = UnboundLocalError
                  "cannot access local variable 'encoded_image' where it is not associated with a value").
  { unfold compose_failure, path_exists. cbn [str_value PyStr.truthy_opt].
    rewrite F. apply truthy_nonempty in N. now rewrite N. }
  assert (R : image_unreadable w (Some image) = false).
  { unfold image_unreadable, open_failure. cbn [str_value]. rewrite F.
    apply andb_false_r. }
  destruct (audio_given w a) eqn:A.
  - rewrite process_inputs_with_audio by auto. rewrite C.
    rewrite request_turns_readable by assumption.
    eexists. split; reflexivity.
  - rewrite process_inputs_without_audio by auto. rewrite C.
    rewrite request_turns_readable by assumption.
    eexists. split; reflexivity.
Qed.

Lemma process_inputs_dangling_image_path_witness :
  exists u,
    fst (process_inputs healthy_world None (Some "gone.jpg") (Some "a cough")
           "en" initial_state)
    = Raises (UnboundLocalError
                "cannot access local variable 'encoded_image' where it is not associated with a value")
    /\ conversation_memory
         (snd (process_inputs healthy_world None (Some "gone.jpg")
                 (Some "a cough") "en" initial_state))
       = conversation_memory initial_state ++ lookup_turns u.
Proof.
  apply (process_inputs_dangling_image_path healthy_world None "gone.jpg"
           (Some "a cough") "en" initial_state).
  - discriminate.
  - reflexivity.
  - intros [=].
Defined.

(** X18. When a recording is given without typed text and the
    transcription request fails, the error string of
    [transcribe_with_groq] is taken for the patient's words: it is stored
    as the user turn, and both lookups, finding no keyword in it, add their
    generic sentences.  (When the image of the request is there and
    cannot be read, the call raises right after the user turn and the
    error string is all that is stored.) *)
Theorem failed_transcript_becomes_user_turn w p audio i t lang s e :
  p <> "" ->
  fs w p = Some (Readable audio) ->
  PyStr.truthy_opt (environ w "GROQ_API_KEY") = true ->
  PyStr.truthy_opt t = false ->
  groq_transcriptions w "whisper-large-v3" audio "auto" = Fails e ->
  (image_unreadable w i = false ->
   conversation_memory (snd (process_inputs w (Some p) i t lang s))
   = conversation_memory s
     ++ [ Turn user "Error: Failed to transcribe audio.";
          Turn system "Can you describe your symptoms in more detail?";
          Turn system
            "I recommend consulting a healthcare professional for more detailed information." ])
  /\ (image_unreadable w i = true ->
      conversation_memory (snd (process_inputs w (Some p) i t lang s))
      = conversation_memory s ++ [Turn user "Error: Failed to transcribe audio."]).
Proof.
  intros N F K T R.
  rewrite process_inputs_with_audio.
  - cbn [snd advanced conversation_memory str_value].
    unfold effective_text, transcription_result, request_turns.
    rewrite T, F, R. split; intros ->; reflexivity.
  - apply no_input_given_false_iff. left. discriminate.
  - unfold audio_given, path_exists. cbn [str_value PyStr.truthy_opt].
    rewrite F. apply truthy_nonempty in N. now rewrite N.
  - assumption.
Qed.

Lemma failed_transcript_becomes_user_turn_witness :
  conversation_memory
    (snd (process_inputs deaf_world (Some "voice.mp3") None (Some "") "en"
            initial_state))
  = conversation_memory initial_state
    ++ [ Turn user "Error: Failed to transcribe audio.";
         Turn system "Can you describe your symptoms in more detail?";
         Turn system
           "I recommend consulting a healthcare professional for more detailed information." ].
Proof.
  apply (proj1 (failed_transcript_becomes_user_turn deaf_world "voice.mp3"
                  [x49; x44; x33] None (Some "") "en" initial_state
                  (RemoteError "503 Service Unavailable")
                  ltac:(discriminate) eq_refl eq_refl eq_refl eq_refl)).
  reflexivity.
Defined.

(** ** The encoded image *)

Lemma get_out_of_range n s : (String.length s <= n)%nat -> String.get n s = None.
Proof.
  revert n; induction s as [|c s IH]; intros n L; [now destruct n|].
  destruct n; simpl in *; [lia | apply IH; lia].
Qed.

Lemma char_of_sextet_is_base64 n : is_base64_char (Base64.char_of_sextet n) = true.
Proof.
  destruct (N.lt_ge_cases n 64) as [L|G].
  - unfold is_base64_char. now rewrite Base64Facts.sextet_roundtrip.
  - unfold Base64.char_of_sextet. rewrite get_out_of_range; [reflexivity|].
    change (String.length Base64.alphabet) with 64%nat. lia.
Qed.

Lemma all_chars_text_of_chars p l :
  all_chars p (Base64.text_of_chars l) = forallb p l.
Proof. induction l; simpl; congruence. Qed.

Lemma length_text_of_chars l :
  String.length (Base64.text_of_chars l) = length l.
Proof. induction l; simpl; congruence. Qed.

Lemma b64encode_shape_steps rest :
  let shape data :=
    forallb is_base64_char (Base64.b64encode data) = true
    /\ length (Base64.b64encode data) = (4 * ((length data + 2) / 3))%nat in
  shape rest /\ (forall a, shape (a :: rest)) /\ (forall a b, shape (a :: b :: rest)).
Proof.
  cbv zeta. induction rest as [|c rest [[IA IL] [IH1 IH2]]].
  - repeat split; intros; cbn [Base64.b64encode];
      unfold Base64.encode1, Base64.encode2; cbn [forallb];
      rewrite ?char_of_sextet_is_base64; reflexivity.
  - split; [apply IH1|]. split; [intros a; apply IH2|].
    intros a b. cbn [Base64.b64encode]. unfold Base64.encode3. split.
    + cbn [app forallb]. rewrite !char_of_sextet_is_base64. exact IA.
    + cbn [app length]. rewrite IL.
      replace (S (S (S (length rest))) + 2)%nat
        with (length rest + 2 + 1 * 3)%nat by lia.
      rewrite Nat.div_add by discriminate. lia.
Qed.

(** X19. The payload [encode_image] returns for an existing file is made
    of characters of the base64 alphabet and the padding character only,
    and its length is four characters for every three bytes of the file,
    rounded up. *)
Theorem encode_image_payload_shape w image_path data s :
  fs w image_path = Some (Readable data) ->
  exists payload,
    fst (encode_image w image_path s) = Returns payload
    /\ all_chars is_base64_char payload = true
    /\ String.length payload = (4 * ((length data + 2) / 3))%nat.
Proof.
  intros F. rewrite (encode_image_existing _ _ data) by assumption.
  eexists. split; [reflexivity|].
  rewrite all_chars_text_of_chars, length_text_of_chars.
  apply (b64encode_shape_steps data).
Qed.

Lemma encode_image_payload_shape_witness :
  exists payload,
    fst (encode_image healthy_world "rash.jpg" initial_state) = Returns payload
    /\ all_chars is_base64_char payload = true
    /\ String.length payload = (4 * ((length [x89; x50; x4e; x47] + 2) / 3))%nat.
Proof.
  apply (encode_image_payload_shape healthy_world "rash.jpg"
           [x89; x50; x4e; x47] initial_state).
  reflexivity.
Defined.

(** X20. Two readable files get the same payload from [encode_image]
    exactly when they hold the same bytes, whatever their paths and
    whatever happened before the two calls: different contents are never
    encoded alike. *)
Theorem encode_image_injective w path1 path2 data1 data2 s1 s2 :
  fs w path1 = Some (Readable data1) ->
  fs w path2 = Some (Readable data2) ->
  fst (encode_image w path1 s1) = fst (encode_image w path2 s2)
  <-> data1 = data2.
Proof.
  intros F1 F2.
  rewrite (encode_image_existing _ _ data1), (encode_image_existing _ _ data2)
    by assumption.
  cbn [fst]. split; [|now intros ->].
  intros [= E].
  apply (f_equal Base64.chars_of_text) in E.
  unfold Base64.chars_of_text, Base64.text_of_chars in E.
  rewrite !list_ascii_of_string_of_list_ascii in E.
  apply (f_equal Base64.b64decode) in E.
  rewrite !Base64Facts.b64decode_b64encode in E. congruence.
Qed.

Lemma encode_image_injective_witness :
  fst (encode_image healthy_world "rash.jpg" initial_state)
  <> fst (encode_image healthy_world "voice.mp3"
            (with_events initial_state [EvRead "rash.jpg"])).
Proof.
  intros E.
  apply (proj1 (encode_image_injective healthy_world "rash.jpg" "voice.mp3"
                  [x89; x50; x4e; x47] [x49; x44; x33] initial_state
                  (with_events initial_state [EvRead "rash.jpg"])
                  eq_refl eq_refl)) in E.
  discriminate E.
Defined.
